(* ===== verification/_CoqProject ===== *)
-Q . S2P
Prelude.v
PyCore.v
HistoryStore.v
Pagination.v
MockResolver.v
RealApi.v
Orchestrator.v
Catalog.v
Concurrency.v
