(* ===== verification/Prelude.v ===== *)
(** * A verification of the sleep-API test tool (src/sleep-test-tool/app.py)

    ** The program

    A Flask application (one file, [app.py]) used to try out a remote
    "sleep coach" API by hand. Its parts and how they interact:
    - the history store (lines 14-44): [load_test_history] reads
      [data/test_history.json] (a missing or unreadable file is the empty
      history), [save_test_history] rewrites the whole file, and
      [add_test_record] stamps a record with a [uuid4] id and a timestamp,
      appends it, keeps the last 100 records and saves;
    - the mock resolver [generate_mock_response] (lines 229-259): canned
      replies per model and test type, with fall-backs;
    - the real-API relay [call_real_api] (lines 190-227): one POST of
      [{type, localTime?, localHour?}] to the worker, the [message] of a 200
      answer, exceptions otherwise;
    - the test endpoint [test_endpoint], POST /api/test (lines 129-188):
      validates the prompt, calls the mock or the real resolver, times the
      call, persists the record through [add_test_record] and answers;
    - the history endpoint [get_history], GET /api/history (lines 261-291):
      a page of the stored records and the page count;
    - the index page [index], GET / (lines 46-127): the model and
      prompt-template catalogs and the last five records, handed to
      [render_template];
    - the template catalog [get_templates], GET /api/templates (lines
      293-321), a constant answer;
    - the start-up of lines 323-331, which creates an empty history file
      and runs the threaded development server.
    Components share no state but the history file. Requests run on
    threads of their own, and the file's read-modify-write in
    [add_test_record] is not locked.

    ** The development (library root: this file)

    - [Prelude]: this header, the [py_scope] scope, the hint databases [py]
      and [py_rw], [lastn] (Python's [l[-k:]]) and its lemmas.
    - [PyCore]: the Python values the code handles, as JSON ([json]), their
      truthiness, dict [get] and item assignment, [str()]/[repr()],
      exceptions as values ([exc], [py_try]), a state-and-exception monad
      [st] (a raise keeps earlier state changes, as in Python), slicing with
      CPython's index normalisation, floor division, [int()] of a query
      argument and werkzeug's [args.get(k, d, type=int)], [str.replace],
      and [timedelta.total_seconds()] printed as a float.
    - [HistoryStore] (Module [HistoryStore]): the file as a [file_state]
      (absent, unreadable, or a JSON document), the three operations as
      [st file_state] computations, each write's outcome an input
      ([write_outcome]: success, [open] failing, or a failure after the
      file was truncated). [Spec] is the abstract specification: a FIFO log
      keeping the [cap] most recent records; [view] is the abstraction
      function, and [add_test_record_refines] the refinement theorem.
    - [Pagination] (Module [Pagination]): [get_history] over the store.
    - [MockResolver] (Module [MockResolver]): the reply table (the
      f-strings evaluated with [local_time or <fallback>]), the lookups and
      the [replace].
    - [RealApi] (Module [RealApi]): the payload, the server as an oracle
      from the payload sent to the outcome of the POST ([http_outcome]:
      timeout, network error, other error, or a status and a body), the
      error message and the three [except] clauses.
    - [Orchestrator] (Module [Orchestrator]): [test_endpoint] over the
      store, with an environment ([env]) giving the fresh id, the timestamp,
      the two clock readings, the server and the write outcome;
      [main_startup] and [main], the [__main__] block up to [app.run] (its
      printed banner, or the exception that ends the script); and
      [app_step], the steps the application can take on the file, for
      reachability.
    - [Catalog] (Module [Catalog]): the catalogs of [index] and
      [get_templates] as data (generated from the source's literals), the
      slice [load_test_history()[-5:]] on every JSON value the file can
      hold (a [str] sliced by UTF-8 code points), [index] up to
      [render_template] ([index_page] is the context it passes) and
      [get_templates].
    - [Concurrency] (Module [Concurrency]): [add_test_record] split into
      its atomic steps on the shared file ([thread_step]: the load, the
      [open] that truncates, the [json.dump]); [run_schedule] runs an
      explicit interleaving (a list of thread indices) and [conc_step] is
      the step relation over all threads, for reachability; [remaining]
      counts the steps a request has left and [fair] says a schedule
      gives every request its turns.

    ** What the theorems show

    - Store: [add_test_record] refines the bounded FIFO log on every write
      outcome (a write failing after truncation leaves the file
      unreadable, so the whole history is lost); after a success the file
      holds at most 100 records ending with the new one; at capacity
      exactly the oldest is evicted; the bound is an invariant of every
      outcome and of every state reachable by any sequence of requests
      ([Orchestrator.reachable_store_bounded], by induction on
      [rtc app_step]); ids stay distinct when [uuid4] does not collide; a
      series of appends keeps the last 100; a non-list file makes every
      append raise.
    - Pagination: never raises and never writes; a page's data is the
      stored-order run, reversed (so page 1 holds the oldest records);
      [pages] is the ceiling of total/per_page and pages past it are
      empty; [per_page = 0] answers 500; pages below 1 are answered, page
      0 empty and negative pages counted from the end; the query
      arguments are read back exactly ([int()] of [str()] of any
      integer, with the defaults 1 and 20 when absent).
    - Mock resolver: the reply is the table entry with the time inserted
      by the f-string (the placeholder [replace] is a no-op for times
      without ["{"]); unknown models get the default model's replies,
      unknown types the default reply; the resolver succeeds exactly when
      [local_time] is a string or falsy.
    - Real API: a 200 answer yields [message], any other status raises
      one doubly wrapped [Exception]; all errors are plain [Exception]s;
      the payload's optional fields.
    - Test endpoint: an empty prompt is answered 400 with no resolution
      and no write; a success answers the fresh id and appends exactly the
      record to the log; resolver errors answer 500 and write nothing;
      write errors answer 500; the mock path makes no network call; the
      response time is negative when the wall clock steps back; a
      non-object body answers 500.
    - Start-up: the banner is printed exactly when the start-up succeeds;
      the only failure is the initial save of an absent file.
    - Index page: never writes; shows the last five records, oldest
      first; any dict, number, boolean or [null] in the file makes it
      raise outside any [try].
    - Concurrency: two overlapping successful requests can lose a record
      (lost update), or lose the whole history when one loads while the
      other's file is truncated; under every interleaving the file keeps
      at most 100 records (invariant by induction on [rtc conc_step]);
      under every fair schedule every request finishes with its own
      stamped record (liveness, by the steps each request has left).

    ** Bounds, fuel and modelling choices

    No definition needs fuel: [str.replace] scans structurally with a skip
    counter, and every other function is structural. Python ints are [Z].
    Strings are byte strings (UTF-8): the only pattern searched,
    ["{local_time}"], is ASCII, so byte-wise and code-point-wise replace
    agree. A float is held by its [repr] text; [seconds_repr] is exact for
    durations under 10^15 microseconds. [str()] of a string inside a
    container escapes ASCII control bytes only (non-ASCII non-printable
    characters are kept). Slicing a dict raises [KeyError] as in Python
    3.12 and later. What the outside world decides (uuid4, the clocks, the
    network and the worker, whether a write succeeds, how werkzeug rejects
    a body) is an input of the model.

    In [Concurrency] each step is atomic; the file is unreadable from the
    [open] to the end of the [json.dump], which covers every partial
    write a concurrent reader could see (all of them fail [json.load]).
    Only [add_test_record]'s accesses interleave: the other routes read
    the file once, atomically. When two writers have both opened the
    file before either dumps, the real file can end unparsable where the
    model keeps the last writer's list; no theorem rests on that case
    (see [Concurrency]).

    [int()] of a query argument accepts ASCII digits and whitespace only;
    Python's also accepts other Unicode digits and spaces, which the model
    answers with the default.

    ** Not modelled

    The Jinja rendering of [index.html] (the template is not in the
    repository), Flask's routing and JSON serialisation, logging, the
    module-level set-up of lines 1-15 ([os.makedirs('data')] and the
    Flask configuration: no state the code reads back), the server's
    socket handling (Werkzeug's), and the debug reloader, which runs the
    [__main__] block a second time in a child process (the second
    start-up finds the file the first one created and leaves it). *)

From stdpp Require Export base list strings relations.
From Stdlib Require Export ZArith Lia Ascii.

(** Notations of the development live in [py_scope]. *)
Declare Scope py_scope.
Delimit Scope py_scope with py.

(** Shared automation: [py] collects the resolution lemmas and [py_rw] the rewriting lemmas
    on lists and Python values that the components' proofs rely on. *)
Create HintDb py.
Create Rewrite HintDb py_rw.

Ltac inv_clear H := inversion H; subst; clear H.

(** Two prefixes of a list agree when their lengths, cut at the list's
    length, agree. *)
Lemma take_min_length {A} (a : nat) (l : list A) : take (min a (length l)) l = take a l.
Proof.
  destruct (Nat.le_ge_cases a (length l)).
  - by rewrite Nat.min_l.
  - rewrite Nat.min_r by done. rewrite !take_ge by lia. done.
Qed.

Lemma take_eq_min {A} (a b : nat) (l : list A) :
  min a (length l) = min b (length l) -> take a l = take b l.
Proof. intros H. by rewrite <- take_min_length, H, take_min_length. Qed.

(** ** The last [k] elements of a list

    Python's [history[-k:]] on a list (for [k > 0]) keeps the last [k]
    elements; [lastn] is that operation on Rocq lists. *)
Definition lastn {A} (k : nat) (l : list A) : list A := drop (length l - k) l.

Section Lastn.
Context {A : Type}.
Implicit Types (l m : list A) (x : A).

Lemma length_lastn k l : length (lastn k l) = min k (length l).
Proof. unfold lastn. rewrite length_drop. lia. Qed.

Lemma lastn_all k l : length l <= k -> lastn k l = l.
Proof. intros H. unfold lastn. by replace (length l - k) with 0 by lia. Qed.

Lemma lastn_0 l : lastn 0 l = [].
Proof. unfold lastn. rewrite Nat.sub_0_r. apply drop_all. Qed.

Lemma lastn_suffix k l : suffix (lastn k l) l.
Proof. unfold lastn. exists (take (length l - k) l). by rewrite take_drop. Qed.

Lemma lastn_lastn j k l : j <= k -> lastn j (lastn k l) = lastn j l.
Proof.
  intros Hjk. unfold lastn. rewrite length_drop, drop_drop.
  f_equal. lia.
Qed.

Lemma lastn_app_le k l m :
  length m <= k -> lastn k (l ++ m) = lastn (k - length m) l ++ m.
Proof.
  intros Hm. unfold lastn. rewrite length_app, drop_app_le by lia.
  f_equal. f_equal. lia.
Qed.

Lemma lastn_snoc k l x : 0 < k -> lastn k (l ++ [x]) = lastn (k - 1) l ++ [x].
Proof. intros Hk. apply lastn_app_le. simpl. lia. Qed.

(** Trimming before or after appending one element gives the same list. *)
Lemma lastn_snoc_lastn k l x : lastn k (lastn k l ++ [x]) = lastn k (l ++ [x]).
Proof.
  destruct k as [|k]; [by rewrite !lastn_0|].
  rewrite !lastn_snoc by lia. f_equal. apply lastn_lastn. lia.
Qed.

Lemma lastn_app_ge k l m : k <= length m -> lastn k (l ++ m) = lastn k m.
Proof.
  intros Hm. unfold lastn. rewrite length_app, drop_app_ge by lia. f_equal. lia.
Qed.

(** Trimming before appending a block does not change the trimmed result. *)
Lemma lastn_app_lastn k l m : lastn k (lastn k l ++ m) = lastn k (l ++ m).
Proof.
  destruct (Nat.le_ge_cases k (length m)).
  - by rewrite !lastn_app_ge.
  - rewrite !lastn_app_le by done. f_equal. apply lastn_lastn. lia.
Qed.

Lemma lastn_tail k l : length l = S k -> lastn k l = tail l.
Proof.
  intros Hl. destruct l as [|x l]; [done|]. unfold lastn.
  simpl in *. by replace (S (length l) - k) with 1 by lia.
Qed.

(** At capacity, appending evicts exactly the oldest element. *)
Lemma lastn_snoc_full k l x :
  length l = k -> 0 < k -> lastn k (l ++ [x]) = tail l ++ [x].
Proof.
  intros Hl Hk. rewrite lastn_snoc by done. f_equal.
  destruct l as [|y l]; simpl in *; [lia|].
  unfold lastn. simpl. replace (S (length l) - (k - 1)) with 1 by lia. done.
Qed.

Lemma lastn_NoDup k l : NoDup l -> NoDup (lastn k l).
Proof. intros H. eapply sublist_NoDup; [exact H|]. apply sublist_drop. Qed.
End Lastn.

(** Ids drawn from a suffix: a suffix of a duplicate-free list is
    duplicate-free, and [omap] keeps suffixes. *)
Lemma suffix_omap {A B} (f : A -> option B) (s l : list A) :
  suffix s l -> suffix (omap f s) (omap f l).
Proof. intros [p ->]. rewrite omap_app. by exists (omap f p). Qed.

Lemma NoDup_suffix {A} (s l : list A) : suffix s l -> NoDup l -> NoDup s.
Proof. intros [p ->] H. by apply NoDup_app in H as (_ & _ & H). Qed.

#[export] Hint Rewrite @length_lastn @lastn_0 @lastn_snoc_lastn : py_rw.
#[export] Hint Resolve lastn_suffix lastn_NoDup : py.
