(* ===== verification/PyCore.v ===== *)
(** * The Python values and builtins app.py relies on

    JSON documents as Python holds them after [json.load] or
    [request.json] ([json]), their truthiness, the [dict] operations the
    code calls ([get], item assignment), [str()] of such values,
    exceptions as an error monad ([exc], with [py_try] for
    [try]/[except]), list slicing with Python's index normalisation, and
    integer floor division. Strings are byte strings: a Python [str] is
    held as its UTF-8 encoding. *)

From S2P Require Import Prelude.
From Stdlib Require Import Ascii DecimalString DecimalZ.
#[local] Set Warnings "-register-all".

Local Open Scope string_scope.

(** ** JSON values *)

(** A float is held by its [repr()] text (repr identifies a float), which is
    also what [str()] prints. *)
Inductive json : Type :=
| JNull
| JBool (b : bool)
| JInt (z : Z)
| JFloat (repr : string)
| JStr (s : string)
| JArr (l : list json)
| JObj (kvs : list (string * json)).

(** [type(v).__name__], used in the messages of [AttributeError] and
    [TypeError]. *)
Definition py_type_name (v : json) : string :=
  match v with
  | JNull => "NoneType"
  | JBool _ => "bool"
  | JInt _ => "int"
  | JFloat _ => "float"
  | JStr _ => "str"
  | JArr _ => "list"
  | JObj _ => "dict"
  end.

(** [bool(v)]: [None], [False], [0], [0.0], [""], [[]] and [{}] are false. *)
Definition py_truthy (v : json) : bool :=
  match v with
  | JNull => false
  | JBool b => b
  | JInt z => negb (z =? 0)%Z
  | JFloat r => negb (bool_decide (r = "0.0" \/ r = "-0.0"))
  | JStr s => negb (bool_decide (s = ""))
  | JArr l => negb (bool_decide (l = []))
  | JObj kvs => negb (bool_decide (kvs = []))
  end.

(** [a or b] *)
Definition py_or (a b : json) : json := if py_truthy a then a else b.

(** ** Dictionaries: insertion-ordered association lists *)

Fixpoint dict_get (kvs : list (string * json)) (k : string) : option json :=
  match kvs with
  | [] => None
  | (k', v) :: kvs' => if bool_decide (k = k') then Some v else dict_get kvs' k
  end.

(** [d[k] = v]: an existing key keeps its place, a new key goes last. *)
Fixpoint dict_set (kvs : list (string * json)) (k : string) (v : json)
    : list (string * json) :=
  match kvs with
  | [] => [(k, v)]
  | (k', v') :: kvs' =>
      if bool_decide (k = k') then (k', v) :: kvs' else (k', v') :: dict_set kvs' k v
  end.

(** ** Exceptions *)

Inductive exc_class : Type :=
| AttributeError | TypeError | KeyError | ZeroDivisionError | OSError
| JSONDecodeError | HTTPException | TimeoutException | NetworkError | Exception.

(** An exception with its class and [str(e)]. *)
Record py_exc : Type := PyExc { exc_cls : exc_class; exc_msg : string }.

Inductive exc (A : Type) : Type :=
| Ok (a : A)
| Raise (e : py_exc).
Arguments Ok {A} a.
Arguments Raise {A} e.

#[export] Instance exc_ret : MRet exc := fun A x => Ok x.
#[export] Instance exc_bind : MBind exc :=
  fun A B f m => match m with Ok x => f x | Raise e => Raise e end.

(** [try: m except: h(e)] *)
Definition py_try {A} (m : exc A) (h : py_exc -> exc A) : exc A :=
  match m with Ok x => Ok x | Raise e => h e end.

Definition attr_error (v : json) (attr : string) : py_exc :=
  PyExc AttributeError ("'" ++ py_type_name v ++ "' object has no attribute '" ++ attr ++ "'").

(** [v.get(k, d)]: only a dict has [get]. *)
Definition py_get (v : json) (k : string) (d : json) : exc json :=
  match v with
  | JObj kvs => Ok (default d (dict_get kvs k))
  | _ => Raise (attr_error v "get")
  end.

(** ** [str()] *)

Definition str_of_Z (z : Z) : string := NilZero.string_of_int (Z.to_int z).

(** The characters [str()] prints for an unsigned decimal. *)
Definition uint_chars (u : Decimal.uint) : list ascii :=
  String.list_ascii_of_string (NilZero.string_of_uint u).

Definition dquote : ascii := ascii_of_nat 34.
Definition squote : ascii := "'"%char.
Definition bslash : ascii := "\"%char.

Fixpoint str_mem (c : ascii) (s : string) : bool :=
  match s with
  | EmptyString => false
  | String c' s' => bool_decide (c = c') || str_mem c s'
  end.

Definition hex_digit (n : nat) : ascii :=
  if (n <? 10)%nat then ascii_of_nat (48 + n) else ascii_of_nat (87 + n).

(** One byte of a [repr()]ed string quoted with [q]: backslash, the quote,
    [\n], [\r], [\t] and the other ASCII control bytes are escaped; bytes of
    non-ASCII characters are kept. *)
Definition repr_char (q c : ascii) : string :=
  let n := nat_of_ascii c in
  if bool_decide (c = bslash) then String bslash (String bslash "")
  else if bool_decide (c = q) then String bslash (String q "")
  else if (n =? 10)%nat then "\n"
  else if (n =? 13)%nat then "\r"
  else if (n =? 9)%nat then "\t"
  else if ((n <? 32) || (n =? 127))%nat then
    String bslash (String "x" (String (hex_digit (n / 16)) (String (hex_digit (n mod 16)) "")))
  else String c "".

Fixpoint repr_chars (q : ascii) (s : string) : string :=
  match s with
  | EmptyString => ""
  | String c s' => repr_char q c ++ repr_chars q s'
  end.

(** [repr(s)]: single quotes unless [s] holds a single and no double quote. *)
Definition repr_str (s : string) : string :=
  let q := if str_mem squote s && negb (str_mem dquote s) then dquote else squote in
  String q (repr_chars q s ++ String q "").

Fixpoint py_repr (v : json) : string :=
  match v with
  | JNull => "None"
  | JBool true => "True"
  | JBool false => "False"
  | JInt z => str_of_Z z
  | JFloat r => r
  | JStr s => repr_str s
  | JArr l => "[" ++ String.concat ", " (map py_repr l) ++ "]"
  | JObj kvs =>
      "{" ++ String.concat ", " (map (fun kv => repr_str kv.1 ++ ": " ++ py_repr kv.2) kvs)
      ++ "}"
  end.

(** [str(v)] (and an f-string's [{v}]). *)
Definition py_str (v : json) : string :=
  match v with JStr s => s | _ => py_repr v end.

(** [s * n] for a [str] and an [int]: [n] copies, none when [n <= 0]. *)
Fixpoint str_repeat (s : string) (n : nat) : string :=
  match n with O => "" | S n' => s ++ str_repeat s n' end.

Definition py_str_mul (s : string) (n : Z) : string := str_repeat s (Z.to_nat n).

(** ** Slicing and floor division *)

(** CPython's [PySlice_AdjustIndices] for a step of 1. *)
Definition py_slice_index (n : nat) (i : Z) : nat :=
  Z.to_nat (if (i <? 0)%Z then Z.max 0 (i + Z.of_nat n) else Z.min i (Z.of_nat n)).

(** [l[start:stop]], [None] for an omitted bound. *)
Definition py_slice {A} (l : list A) (start stop : option Z) : list A :=
  let n := length l in
  let i := py_slice_index n (default 0%Z start) in
  let j := py_slice_index n (default (Z.of_nat n) stop) in
  take (j - i) (drop i l).

Definition zero_division : py_exc :=
  PyExc ZeroDivisionError "integer division or modulo by zero".

(** [a // b] on Python ints rounds towards minus infinity, as [Z.div]. *)
Definition py_floordiv (a b : Z) : exc Z :=
  if (b =? 0)%Z then Raise zero_division else Ok (a / b)%Z.

(** ** State threaded through code that may raise

    A computation over a state [S] returns its outcome with the final state;
    a raise keeps the changes made before it, as Python does. *)
Definition st (S A : Type) : Type := S -> exc A * S.

#[export] Instance st_ret {S} : MRet (st S) := fun A x s => (Ok x, s).
#[export] Instance st_bind {S} : MBind (st S) :=
  fun A B f m s =>
    match m s with
    | (Ok x, s') => f x s'
    | (Raise e, s') => (Raise e, s')
    end.

Definition st_get {S} : st S S := fun s => (Ok s, s).
Definition st_put {S} (s : S) : st S unit := fun _ => (Ok tt, s).
Definition st_raise {S A} (e : py_exc) : st S A := fun s => (Raise e, s).
Definition st_lift {S A} (m : exc A) : st S A := fun s => (m, s).

(** Unfolds the monad's plumbing so that [simpl] runs a computation. *)
Ltac st_simpl :=
  unfold mbind, mret, st_bind, st_ret, st_get, st_put, st_raise, st_lift in *; simpl in *.

(** [try: m except Exception as e: h(e)] *)
Definition st_try {S A} (m : st S A) (h : py_exc -> st S A) : st S A :=
  fun s =>
    match m s with
    | (Ok x, s') => (Ok x, s')
    | (Raise e, s') => h e s'
    end.

(** [l.append(x)]: only a list has [append]. *)
Definition py_append (v x : json) : exc (list json) :=
  match v with
  | JArr l => Ok (l ++ [x])%list
  | _ => Raise (attr_error v "append")
  end.

(** ** Flask responses and [int()] of a query argument *)

(** [jsonify(body), status] *)
Record response : Type := Response { status : Z; body : json }.

(** [str.isspace] on an ASCII byte: [\t\n\v\f\r], [\x1c]-[\x1f] and space. *)
Definition is_space (c : ascii) : bool :=
  let n := nat_of_ascii c in (((9 <=? n) && (n <=? 13)) || ((28 <=? n) && (n <=? 32)))%nat.

Definition is_digit (c : ascii) : bool :=
  let n := nat_of_ascii c in ((48 <=? n) && (n <=? 57))%nat.

Definition digit_val (c : ascii) : Z := Z.of_nat (nat_of_ascii c - 48).

(** Decimal digits, an underscore allowed only between two digits. *)
Fixpoint digits_val (acc : Z) (after_us : bool) (ds : list ascii) : option Z :=
  match ds with
  | [] => if after_us then None else Some acc
  | c :: ds' =>
      if bool_decide (c = "_"%char) then (if after_us then None else digits_val acc true ds')
      else if is_digit c then digits_val (10 * acc + digit_val c)%Z false ds'
      else None
  end.

Definition parse_digits (ds : list ascii) : option Z :=
  match ds with
  | c :: _ => if is_digit c then digits_val 0 false ds else None
  | [] => None
  end.

Fixpoint skip_spaces (cs : list ascii) : list ascii :=
  match cs with
  | c :: cs' => if is_space c then skip_spaces cs' else cs
  | [] => []
  end.

(** [int(s)] for a [str] argument: [None] where Python raises [ValueError].
    Surrounding whitespace is stripped, a sign is allowed. *)
Definition py_int_of_string (s : string) : option Z :=
  let cs := String.list_ascii_of_string s in
  let cs := rev (skip_spaces (rev (skip_spaces cs))) in
  match cs with
  | "-"%char :: ds => Z.opp <$> parse_digits ds
  | "+"%char :: ds => parse_digits ds
  | ds => parse_digits ds
  end.

Fixpoint assoc_first {A} (kvs : list (string * A)) (k : string) : option A :=
  match kvs with
  | [] => None
  | (k', v) :: kvs' => if bool_decide (k = k') then Some v else assoc_first kvs' k
  end.

(** [d.get(key)] on a dict with string keys: a list or dict key is
    unhashable; any other non-string key is simply absent. *)
Definition py_dict_get {A} (kvs : list (string * A)) (key : json) : exc (option A) :=
  match key with
  | JStr k => Ok (assoc_first kvs k)
  | JArr _ | JObj _ => Raise (PyExc TypeError ("unhashable type: '" ++ py_type_name key ++ "'"))
  | _ => Ok None
  end.

(** [s.replace(pat, rep)] for a non-empty [pat]: a left-to-right scan
    replacing non-overlapping occurrences; [skip] counts the bytes of an
    occurrence still to be dropped. *)
Fixpoint replace_scan (pat rep : string) (skip : nat) (s : string) : string :=
  match s with
  | EmptyString => EmptyString
  | String c s' =>
      match skip with
      | S k => replace_scan pat rep k s'
      | O => if String.prefix pat s then rep ++ replace_scan pat rep (String.length pat - 1) s'
             else String c (replace_scan pat rep 0 s')
      end
  end.

(** With an empty [pat], Python inserts [rep] before every character and
    at the end. *)
Fixpoint replace_empty (rep s : string) : string :=
  match s with
  | EmptyString => rep
  | String c s' => rep ++ String c (replace_empty rep s')
  end.

Definition py_str_replace (pat rep s : string) : string :=
  if bool_decide (pat = "") then replace_empty rep s else replace_scan pat rep 0 s.

(** werkzeug's [request.args.get(k, default, type=int)]: an absent key or
    a value [int] rejects gives the default. *)
Definition arg_int (args : list (string * string)) (k : string) (default : Z) : Z :=
  match assoc_first args k with
  | Some s => match py_int_of_string s with Some z => z | None => default end
  | None => default
  end.

(** ** [timedelta.total_seconds()] as a float's [repr()]

    A wall-clock difference in microseconds, divided by [10^6]: [repr]
    prints the shortest decimal that reads back as the same double, which
    for fewer than 16 significant digits (under about 31 years) is the
    decimal value itself, in exponent notation below [1e-04]. *)
Fixpoint zeros (n : nat) : string :=
  match n with O => "" | S n' => String "0" (zeros n') end.

Fixpoint skip_zero_chars (cs : list ascii) : list ascii :=
  match cs with
  | c :: cs' => if bool_decide (c = "0"%char) then skip_zero_chars cs' else cs
  | [] => []
  end.

Definition strip_trailing_zeros (s : string) : string :=
  String.string_of_list_ascii (rev (skip_zero_chars (rev (String.list_ascii_of_string s)))).

(** The fractional digits of [f / 10^6], [0 <= f < 10^6]. *)
Definition micro_fraction (f : Z) : string :=
  if (f =? 0)%Z then "0"
  else let d := str_of_Z f in strip_trailing_zeros (zeros (6 - String.length d) ++ d).

Definition seconds_repr (us : Z) : string :=
  let sign := if (us <? 0)%Z then "-" else "" in
  let a := Z.abs us in
  if (a =? 0)%Z then "0.0"
  else if (a <? 10)%Z then sign ++ str_of_Z a ++ "e-06"
  else if (a <? 100)%Z then
    sign ++ str_of_Z (a / 10) ++ (if (a mod 10 =? 0)%Z then "" else "." ++ str_of_Z (a mod 10))
    ++ "e-05"
  else sign ++ str_of_Z (a / 1000000) ++ "." ++ micro_fraction (a mod 1000000).

(** ** Lemmas on slicing *)

Lemma py_slice_index_neg n k : (0 < k)%Z -> py_slice_index n (- k) = n - Z.to_nat k.
Proof.
  intros Hk. unfold py_slice_index.
  destruct (Z.ltb_spec (- k) 0); lia.
Qed.

Lemma py_slice_index_len n : py_slice_index n (Z.of_nat n) = n.
Proof. unfold py_slice_index. destruct (Z.ltb_spec (Z.of_nat n) 0); lia. Qed.

(** [l[-k:]] is [lastn k l] for a positive [k]. *)
Lemma py_slice_neg_suffix {A} (l : list A) (k : positive) :
  py_slice l (Some (Z.neg k)) None = lastn (Pos.to_nat k) l.
Proof.
  unfold py_slice, lastn. simpl.
  rewrite (py_slice_index_neg _ (Z.pos k)), py_slice_index_len by lia.
  rewrite take_ge; [f_equal; lia|]. rewrite length_drop. lia.
Qed.

(** [l[i:j]] for [0 <= i <= j]. *)
Lemma py_slice_nonneg {A} (l : list A) (i j : Z) :
  (0 <= i <= j)%Z ->
  py_slice l (Some i) (Some j) = take (Z.to_nat (j - i)) (drop (Z.to_nat i) l).
Proof.
  intros Hij. unfold py_slice, py_slice_index. simpl.
  destruct (Z.ltb_spec i 0), (Z.ltb_spec j 0); try lia.
  destruct (Z.le_gt_cases (Z.of_nat (length l)) i).
  - rewrite !drop_ge by lia. by rewrite !take_nil.
  - rewrite (Z.min_l i) by lia.
    apply take_eq_min. rewrite length_drop. lia.
Qed.

#[export] Hint Rewrite @py_slice_neg_suffix : py_rw.

(** ** Lemmas on dictionaries *)

Lemma dict_get_set kvs k k' v :
  dict_get (dict_set kvs k v) k' = if bool_decide (k' = k) then Some v else dict_get kvs k'.
Proof.
  induction kvs as [|[k0 v0] kvs IH]; simpl.
  - by repeat case_bool_decide.
  - destruct (decide (k = k0)) as [->|Hne0];
      [rewrite (bool_decide_true (k0 = k0)) by done | rewrite (bool_decide_false (k = k0)) by done];
      simpl; rewrite ?IH; repeat case_bool_decide; subst; done.
Qed.

Lemma dict_get_set_eq kvs k v : dict_get (dict_set kvs k v) k = Some v.
Proof. rewrite dict_get_set. by case_bool_decide. Qed.

Lemma dict_get_set_ne kvs k k' v : k' <> k -> dict_get (dict_set kvs k v) k' = dict_get kvs k'.
Proof. intros Hne. rewrite dict_get_set. by case_bool_decide. Qed.

#[export] Hint Rewrite dict_get_set_eq : py_rw.
#[export] Hint Rewrite dict_get_set_ne using done : py_rw.

(** ** Lemmas on [str.replace] *)

Lemma str_mem_app c a b : str_mem c (a ++ b) = str_mem c a || str_mem c b.
Proof. induction a as [|c' a IH]; simpl; [done|]. by rewrite IH, orb_assoc. Qed.

(** A pattern whose first byte does not occur in [s] leaves [s] unchanged. *)
Lemma replace_scan_absent c p rep s :
  str_mem c s = false -> replace_scan (String c p) rep 0 s = s.
Proof.
  induction s as [|c' s IH]; simpl; [done|].
  intros [Hc Hs]%orb_false_iff. rewrite IH by done.
  destruct (ascii_dec c c') as [->|]; [by rewrite bool_decide_true in Hc | done].
Qed.

Lemma py_str_replace_absent c p rep s :
  str_mem c s = false -> py_str_replace (String c p) rep s = s.
Proof. intros H. unfold py_str_replace. rewrite bool_decide_false by done. by apply replace_scan_absent. Qed.

(** ** Lemmas on string-keyed lookups *)

Lemma assoc_first_Forall {A} (P : A -> Prop) (kvs : list (string * A)) k v :
  Forall (fun kv => P kv.2) kvs -> assoc_first kvs k = Some v -> P v.
Proof.
  induction kvs as [|[k' v'] kvs IH]; simpl; [done|].
  intros [Hv Hs]%Forall_cons. case_bool_decide; [by intros [= <-]|]. by apply IH.
Qed.

Lemma assoc_first_None {A} (kvs : list (string * A)) k :
  k ∉ map fst kvs -> assoc_first kvs k = None.
Proof.
  induction kvs as [|[k' v'] kvs IH]; simpl; [done|].
  intros Hk. case_bool_decide; [subst; exfalso; apply Hk; by left|].
  apply IH. intros Hin. apply Hk. by right.
Qed.

(** ** [int()] reads back what [str()] prints

    The printed digits have no surrounding space, so the strip is the
    identity; [digits_val] accumulates them as [Pos.of_uint] does. *)

Lemma digit_not_space c : is_digit c = true -> is_space c = false.
Proof.
  unfold is_digit, is_space. intros [H1 H2]%andb_true_iff.
  apply Nat.leb_le in H1, H2. apply orb_false_iff; split; apply andb_false_iff; right;
    apply Nat.leb_gt; lia.
Qed.

Lemma skip_spaces_id cs : Forall (fun c => is_space c = false) cs -> skip_spaces cs = cs.
Proof. intros [|c cs' Hc _]; simpl; [done|]. by rewrite Hc. Qed.

Lemma strip_spaces_id cs :
  Forall (fun c => is_space c = false) cs -> rev (skip_spaces (rev (skip_spaces cs))) = cs.
Proof.
  intros H. rewrite (skip_spaces_id cs H), skip_spaces_id by (by apply Forall_rev).
  apply rev_involutive.
Qed.

Lemma uint_digits u :
  Forall (fun c => is_digit c = true) (String.list_ascii_of_string (NilEmpty.string_of_uint u)).
Proof. induction u; simpl; constructor; done. Qed.

Lemma uint_chars_not_space u : Forall (fun c => is_space c = false) (uint_chars u).
Proof.
  unfold uint_chars. eapply Forall_impl; [|apply digit_not_space].
  destruct u; [repeat constructor|apply uint_digits..].
Qed.

Lemma digits_val_uint_acc u acc :
  digits_val (Z.pos acc) false (String.list_ascii_of_string (NilEmpty.string_of_uint u))
  = Some (Z.pos (Pos.of_uint_acc u acc)).
Proof.
  revert acc. induction u; intros acc; simpl; [done|..]; rewrite <- IHu; f_equal;
    unfold digit_val; simpl; lia.
Qed.

Lemma parse_digits_uint u : parse_digits (uint_chars u) = Some (Z.of_uint u).
Proof.
  unfold uint_chars, Z.of_uint.
  assert (Hz : forall v, digits_val 0 false (String.list_ascii_of_string (NilEmpty.string_of_uint v))
                         = Some (Z.of_N (Pos.of_uint v))).
  { induction v; simpl; rewrite ?IHv; try done; rewrite <- digits_val_uint_acc; f_equal; unfold digit_val; simpl; lia. }
  destruct u; [done|..]; exact (Hz _).
Qed.

Lemma py_int_of_string_int d : py_int_of_string (NilZero.string_of_int d) = Some (Z.of_int d).
Proof.
  unfold py_int_of_string. destruct d as [u|u].
  - change (String.list_ascii_of_string (NilZero.string_of_int (Decimal.Pos u))) with (uint_chars u).
    rewrite strip_spaces_id by apply uint_chars_not_space.
    pose proof (parse_digits_uint u) as H. destruct u; exact H.
  - change (String.list_ascii_of_string (NilZero.string_of_int (Decimal.Neg u)))
      with ("-"%char :: uint_chars u).
    rewrite strip_spaces_id by (constructor; [done|apply uint_chars_not_space]).
    simpl. by rewrite parse_digits_uint.
Qed.

Lemma int_of_str_Z z : py_int_of_string (str_of_Z z) = Some z.
Proof. unfold str_of_Z. by rewrite py_int_of_string_int, DecimalZ.of_to. Qed.
