(* ===== verification/HistoryStore.v ===== *)
(** * The test-history store (app.py, lines 14-44)

    The history file [data/test_history.json] as a state ([file_state]),
    [load_test_history], [save_test_history] and [add_test_record] as
    computations over it, an abstract specification of the store (a FIFO
    log of the 100 most recent records, [Spec]) and the refinement theorem
    relating the two. *)

From S2P Require Import Prelude PyCore.

Local Open Scope string_scope.

Module HistoryStore.

(** ** State *)

Definition TEST_HISTORY_FILE : string := "data/test_history.json".

(** What [TEST_HISTORY_FILE] holds: nothing, bytes that [open]/[json.load]
    cannot read back (a truncated or corrupt file), or a JSON document. *)
Inductive file_state : Type :=
| FileAbsent
| FileUnreadable
| FileJson (v : json).

(** How one [open(..., 'w')] + [json.dump] goes: it succeeds, [open] raises
    before the file is touched, or the write fails after [open] truncated the
    file (disk full, I/O error), leaving a prefix that is not JSON. *)
Inductive write_outcome : Type :=
| WriteOk
| OpenFails (msg : string)
| WriteFailsAfterTruncate (msg : string).

Abbreviation store := (st file_state).

(** ** Operations *)

(** The value [load_test_history] returns: a missing or unreadable file is
    the empty history (the bare [except] swallows every error). *)
Definition history_of (f : file_state) : json :=
  match f with
  | FileJson v => v
  | _ => JArr []
  end.

Definition load_test_history : store json :=
  f ← st_get; mret (history_of f).

Definition save_test_history (history : json) (w : write_outcome) : store unit :=
  match w with
  | WriteOk => st_put (FileJson history)
  | OpenFails msg => st_raise (PyExc OSError msg)
  | WriteFailsAfterTruncate msg => _ ← st_put FileUnreadable; st_raise (PyExc OSError msg)
  end.

(** [record['id'] = str(uuid.uuid4())]; [record['timestamp'] = ...]: the
    fresh id and the ISO time are the environment's. *)
Definition stamp_record (record : list (string * json)) (uuid ts : string)
    : list (string * json) :=
  dict_set (dict_set record "id" (JStr uuid)) "timestamp" (JStr ts).

Definition HISTORY_LIMIT : nat := 100.

Definition add_test_record (record : list (string * json)) (uuid ts : string)
    (w : write_outcome) : store (list (string * json)) :=
  history ← load_test_history;
  let record := stamp_record record uuid ts in
  l ← st_lift (py_append history (JObj record));
  let l := if (HISTORY_LIMIT <? length l)%nat then py_slice l (Some (-100)%Z) None else l in
  _ ← save_test_history (JArr l) w;
  mret record.

(** ** Abstract specification *)

(** The records the store holds, as the app reads them back; [None] when
    the file holds JSON that is not a list, which the code cannot append to. *)
Definition view (f : file_state) : option (list json) :=
  match history_of f with
  | JArr l => Some l
  | _ => None
  end.

Module Spec.
(** A log of capacity [cap]: appending keeps the [cap] most recent. *)
Definition append (cap : nat) (r : json) (s : list json) : list json :=
  lastn cap (s ++ [r]).

Definition bounded (cap : nat) (s : list json) : Prop := length s <= cap.
End Spec.

(** The invariant of the file: when it holds a list, at most 100 records. *)
Definition store_inv (f : file_state) : Prop :=
  match view f with
  | Some l => length l <= HISTORY_LIMIT
  | None => True
  end.

(** The [id] of a stored record, when it has a string one. *)
Definition record_id (v : json) : option string :=
  match v with
  | JObj kvs => match dict_get kvs "id" with Some (JStr s) => Some s | _ => None end
  | _ => None
  end.

Definition ids (l : list json) : list string := omap record_id l.

(** A sequence of [add_test_record] calls, each write succeeding: what a
    series of successful test requests does to the store. *)
Fixpoint add_records (reqs : list (list (string * json) * string * string)) : store unit :=
  match reqs with
  | [] => mret tt
  | (record, uuid, ts) :: reqs' =>
      _ ← add_test_record record uuid ts WriteOk; add_records reqs'
  end.

Definition stamped (req : list (string * json) * string * string) : json :=
  let '(record, uuid, ts) := req in JObj (stamp_record record uuid ts).

(** ** The abstract log *)

Local Open Scope list_scope.

Section SpecLemmas.
Context (cap : nat).

Lemma spec_append_bounded r s : Spec.bounded cap (Spec.append cap r s).
Proof. unfold Spec.bounded, Spec.append. rewrite length_lastn. lia. Qed.

Lemma spec_append_last r s : 0 < cap -> last (Spec.append cap r s) = Some r.
Proof. intros Hc. unfold Spec.append. rewrite lastn_snoc by done. apply last_snoc. Qed.

Lemma spec_append_under r s : length s < cap -> Spec.append cap r s = s ++ [r].
Proof. intros H. apply lastn_all. rewrite length_app. simpl. lia. Qed.

Lemma spec_append_full r s : length s = cap -> 0 < cap -> Spec.append cap r s = tail s ++ [r].
Proof. intros H Hc. by apply lastn_snoc_full. Qed.

(** Appending [rs] one by one keeps the last [cap] of the whole sequence. *)
Lemma spec_append_many_lastn rs s :
  foldl (fun acc r => Spec.append cap r acc) (lastn cap s) rs = lastn cap (s ++ rs).
Proof.
  revert s. induction rs as [|r rs IH]; intros s; simpl.
  - by rewrite app_nil_r.
  - unfold Spec.append at 2. rewrite lastn_snoc_lastn, IH, <- app_assoc. done.
Qed.

Lemma spec_append_many rs s :
  rs <> [] -> foldl (fun acc r => Spec.append cap r acc) s rs = lastn cap (s ++ rs).
Proof.
  destruct rs as [|r rs]; [done|]. intros _. simpl.
  unfold Spec.append at 2. rewrite spec_append_many_lastn, <- app_assoc. done.
Qed.
End SpecLemmas.

(** ** Lemmas on the store *)

Lemma view_history_of f l : view f = Some l -> history_of f = JArr l.
Proof. unfold view. destruct (history_of f); congruence. Qed.

Lemma trim_history (l : list json) :
  (if (HISTORY_LIMIT <? length l)%nat then py_slice l (Some (-100)%Z) None else l)
  = lastn HISTORY_LIMIT l.
Proof.
  destruct (Nat.ltb_spec HISTORY_LIMIT (length l)).
  - by rewrite py_slice_neg_suffix.
  - symmetry. by apply lastn_all.
Qed.

Lemma record_id_stamp record uuid ts : record_id (JObj (stamp_record record uuid ts)) = Some uuid.
Proof. unfold record_id, stamp_record. by rewrite dict_get_set_ne, dict_get_set_eq. Qed.

Lemma ids_snoc_stamp l record uuid ts :
  ids (l ++ [JObj (stamp_record record uuid ts)]) = ids l ++ [uuid].
Proof.
  unfold ids. rewrite omap_app. f_equal.
  pose proof (record_id_stamp record uuid ts) as Hid. simpl in *. by rewrite Hid.
Qed.

(** ** Theorems *)

Lemma add_test_record_run record uuid ts w f l :
  view f = Some l ->
  add_test_record record uuid ts w f =
    let r := stamp_record record uuid ts in
    match w with
    | WriteOk => (Ok r, FileJson (JArr (Spec.append HISTORY_LIMIT (JObj r) l)))
    | OpenFails m => (Raise (PyExc OSError m), f)
    | WriteFailsAfterTruncate m => (Raise (PyExc OSError m), FileUnreadable)
    end.
Proof.
  intros Hv. unfold add_test_record, load_test_history. st_simpl.
  rewrite (view_history_of f l Hv). simpl. rewrite trim_history.
  destruct w; reflexivity.
Qed.

(** C1: [add_test_record] refines the abstract log: on a store holding the
    list [l], it stamps the record with the given id and time, and
    - when the write succeeds, returns the stamped record and leaves the
      file holding [Spec.append 100 record l], the last 100 of [l ++ [record]];
    - when [open] fails, raises the [OSError] with the file unchanged;
    - when the write fails after truncating, raises the [OSError] and
      leaves the file unreadable. *)
Theorem add_test_record_refines record uuid ts w f l :
  view f = Some l ->
  add_test_record record uuid ts w f =
    let r := stamp_record record uuid ts in
    match w with
    | WriteOk => (Ok r, FileJson (JArr (Spec.append HISTORY_LIMIT (JObj r) l)))
    | OpenFails m => (Raise (PyExc OSError m), f)
    | WriteFailsAfterTruncate m => (Raise (PyExc OSError m), FileUnreadable)
    end.
Proof. intros Hv. by apply add_test_record_run. Qed.

Lemma add_test_record_raises_not_a_list record uuid ts w f :
  view f = None ->
  add_test_record record uuid ts w f = (Raise (attr_error (history_of f) "append"), f).
Proof.
  unfold view, add_test_record, load_test_history. st_simpl.
  destruct (history_of f); done.
Qed.

(** C23: when the file holds JSON that is not a list, [history.append]
    raises [AttributeError] and the file is left as it was. *)
Theorem add_test_record_not_a_list record uuid ts w f :
  view f = None ->
  add_test_record record uuid ts w f = (Raise (attr_error (history_of f) "append"), f).
Proof. intros Hv. by apply add_test_record_raises_not_a_list. Qed.

(** C2: after a successful [add_test_record], whatever the file held
    before, it holds a list of at most 100 records whose last one is the
    record returned. *)
Theorem add_test_record_bounded record uuid ts w f r f' :
  add_test_record record uuid ts w f = (Ok r, f') ->
  exists l, view f' = Some l /\ length l <= HISTORY_LIMIT /\ last l = Some (JObj r).
Proof.
  intros H. destruct (view f) as [l|] eqn:Hv.
  - rewrite (add_test_record_run _ _ _ _ _ l Hv) in H.
    destruct w; simplify_eq/=. eexists; split; [done|]. split.
    + apply spec_append_bounded.
    + apply spec_append_last. unfold HISTORY_LIMIT. lia.
  - rewrite add_test_record_raises_not_a_list in H by done. discriminate.
Qed.

(** C3: at capacity (100 records), a successful append evicts exactly the
    oldest record and keeps the others in order. *)
Theorem add_test_record_evicts_oldest record uuid ts f l :
  view f = Some l -> length l = HISTORY_LIMIT ->
  add_test_record record uuid ts WriteOk f =
    (Ok (stamp_record record uuid ts),
     FileJson (JArr (tail l ++ [JObj (stamp_record record uuid ts)]))).
Proof.
  intros Hv Hl. rewrite (add_test_record_run _ _ _ _ _ l Hv). simpl.
  rewrite spec_append_full by (done || unfold HISTORY_LIMIT; lia). done.
Qed.

Lemma add_test_record_inv record uuid ts w f :
  store_inv f -> store_inv (add_test_record record uuid ts w f).2.
Proof.
  unfold store_inv. intros Hinv. destruct (view f) as [l|] eqn:Hv.
  - rewrite (add_test_record_run _ _ _ _ _ l Hv).
    destruct w; cbn -[view].
    + apply spec_append_bounded.
    + by rewrite Hv.
    + simpl. lia.
  - rewrite add_test_record_raises_not_a_list by done. cbn -[view]. by rewrite Hv.
Qed.

(** C15: every outcome of [add_test_record] (success, raise, failed write)
    preserves the invariant that a stored list has at most 100 records. *)
Theorem add_test_record_preserves_inv record uuid ts w f :
  store_inv f -> store_inv (add_test_record record uuid ts w f).2.
Proof. apply add_test_record_inv. Qed.

(** C13: when the stored ids are distinct and the fresh id is not among
    them, the ids stay distinct after the append; the returned record
    carries the fresh id. Uniqueness rests on [uuid4] not colliding: the
    code does not check it. *)
Theorem add_test_record_ids_unique record uuid ts f l r f' :
  view f = Some l -> NoDup (ids l) -> uuid ∉ ids l ->
  add_test_record record uuid ts WriteOk f = (Ok r, f') ->
  record_id (JObj r) = Some uuid /\ exists l', view f' = Some l' /\ NoDup (ids l').
Proof.
  intros Hv Hnd Hfresh H. rewrite (add_test_record_run _ _ _ _ _ l Hv) in H.
  injection H as <- <-. split; [apply record_id_stamp|]. eexists; split; [done|].
  eapply NoDup_suffix; [apply suffix_omap, lastn_suffix|].
  unfold Spec.append. rewrite ids_snoc_stamp.
  apply NoDup_app. split_and!; [done| |apply NoDup_singleton].
  intros x Hx Hin%list_elem_of_singleton. by subst.
Qed.

Lemma add_records_run reqs f s :
  view f = Some s -> reqs <> [] ->
  add_records reqs f = (Ok tt, FileJson (JArr (lastn HISTORY_LIMIT (s ++ map stamped reqs)))).
Proof.
  revert f s. induction reqs as [|[[record uuid] ts] reqs IH]; intros f s Hv Hne; [done|].
  simpl. st_simpl. rewrite (add_test_record_run _ _ _ _ _ s Hv). simpl.
  destruct reqs as [|req reqs].
  - done.
  - rewrite (IH _ (Spec.append HISTORY_LIMIT _ s)) by done. unfold Spec.append. rewrite lastn_app_lastn, <- app_assoc. done.
Qed.

(** C14: a series of successful appends from a store holding [s] leaves
    the last 100 of [s] followed by the stamped records, in order. *)
Theorem add_records_keep_last reqs f s :
  view f = Some s -> reqs <> [] ->
  add_records reqs f = (Ok tt, FileJson (JArr (lastn HISTORY_LIMIT (s ++ map stamped reqs)))).
Proof. intros Hv Hne. by apply add_records_run. Qed.

(** Appending 101 records to an absent history file keeps exactly the
    last 100: the first one is evicted. *)
Theorem add_101_records_evicts_first reqs :
  length reqs = 101 ->
  add_records reqs FileAbsent = (Ok tt, FileJson (JArr (tail (map stamped reqs)))).
Proof.
  intros Hl. rewrite (add_records_run reqs FileAbsent []) by (done || by destruct reqs).
  simpl. rewrite lastn_tail; [done|]. by rewrite length_map.
Qed.

(** ** Witnesses: the theorems at concrete stores *)

Lemma add_test_record_refines_witness :
  view (FileJson (JArr [JObj [("id", JStr "a")]])) = Some [JObj [("id", JStr "a")]] /\
  add_test_record [("prompt", JStr "hi")] "b" "2025-01-01T23:30:00" WriteOk
    (FileJson (JArr [JObj [("id", JStr "a")]]))
  = (Ok [("prompt", JStr "hi"); ("id", JStr "b"); ("timestamp", JStr "2025-01-01T23:30:00")],
     FileJson (JArr [JObj [("id", JStr "a")];
                     JObj [("prompt", JStr "hi"); ("id", JStr "b");
                           ("timestamp", JStr "2025-01-01T23:30:00")]])).
Proof.
  split; [reflexivity|].
  rewrite (add_test_record_refines _ _ _ _ _ [JObj [("id", JStr "a")]]) by reflexivity.
  vm_compute. reflexivity.
Defined.

Lemma add_test_record_not_a_list_witness :
  view (FileJson (JObj [])) = None /\
  add_test_record [] "u" "t" WriteOk (FileJson (JObj []))
  = (Raise (PyExc AttributeError "'dict' object has no attribute 'append'"), FileJson (JObj [])).
Proof.
  split; [reflexivity|].
  rewrite add_test_record_not_a_list by reflexivity. reflexivity.
Defined.

Lemma add_test_record_bounded_witness :
  exists l, view (FileJson (JArr [JObj (stamp_record [] "u" "t")])) = Some l /\
    length l <= HISTORY_LIMIT /\ last l = Some (JObj (stamp_record [] "u" "t")).
Proof.
  apply (add_test_record_bounded [] "u" "t" WriteOk FileAbsent). reflexivity.
Defined.

Lemma add_test_record_evicts_oldest_witness :
  length (replicate 100 (JObj [])) = HISTORY_LIMIT /\
  add_test_record [] "u" "t" WriteOk (FileJson (JArr (replicate 100 (JObj []))))
  = (Ok (stamp_record [] "u" "t"),
     FileJson (JArr (replicate 99 (JObj []) ++ [JObj (stamp_record [] "u" "t")]))).
Proof.
  split; [reflexivity|].
  apply (add_test_record_evicts_oldest [] "u" "t" _ (replicate 100 (JObj []))); reflexivity.
Defined.

Lemma add_test_record_preserves_inv_witness :
  store_inv (FileJson (JArr [JObj []])) /\
  store_inv (add_test_record [] "u" "t" (OpenFails "denied") (FileJson (JArr [JObj []]))).2.
Proof.
  split; [vm_compute; lia|]. apply add_test_record_preserves_inv. vm_compute. lia.
Defined.

Lemma add_test_record_ids_unique_witness :
  record_id (JObj (stamp_record [] "b" "t")) = Some "b" /\
  exists l', view (FileJson (JArr [JObj [("id", JStr "a")]; JObj (stamp_record [] "b" "t")]))
             = Some l' /\ NoDup (ids l').
Proof.
  apply (add_test_record_ids_unique [] "b" "t" (FileJson (JArr [JObj [("id", JStr "a")]]))
           [JObj [("id", JStr "a")]]).
  - reflexivity.
  - apply NoDup_singleton.
  - vm_compute. intros Hin%list_elem_of_singleton. discriminate.
  - reflexivity.
Defined.

Lemma add_records_keep_last_witness :
  add_records [([], "u1", "t1"); ([], "u2", "t2")] FileAbsent
  = (Ok tt, FileJson (JArr (lastn HISTORY_LIMIT
      ([] ++ map stamped [([], "u1", "t1"); ([], "u2", "t2")])))).
Proof. apply add_records_keep_last; [reflexivity | discriminate]. Defined.

Lemma add_101_records_evicts_first_witness :
  add_records (map (fun n => ([("prompt", JInt (Z.of_nat n))], str_of_Z (Z.of_nat n), "t"))
                   (seq 0 101)) FileAbsent
  = (Ok tt, FileJson (JArr (tail (map stamped
      (map (fun n => ([("prompt", JInt (Z.of_nat n))], str_of_Z (Z.of_nat n), "t"))
           (seq 0 101)))))).
Proof. apply add_101_records_evicts_first. reflexivity. Defined.

End HistoryStore.
