(* ===== verification/Pagination.v ===== *)
(** * The history endpoint: GET /api/history (app.py, lines 261-291)

    [get_history] reads the store, slices the page [(page-1)*per_page] to
    [start+per_page] out of the stored order (oldest first), reverses that
    page, and reports the total and the page count [(total+per_page-1)//per_page].
    Every exception becomes a 500 response. The theorems give the page's
    contents, the page count as a ceiling, the behaviour outside the range
    of pages and the errors. *)

From S2P Require Import Prelude PyCore HistoryStore.

Local Open Scope string_scope.

Module Pagination.
Import HistoryStore.

(** ** Operations *)

(** [paginated_history = history[start:end]; paginated_history.reverse()]
    on what [load_test_history] returned. Slicing a dict raises [KeyError]
    with the slice as message (Python 3.12 and later); a string slices but
    has no [reverse]; scalars are not subscriptable. *)
Definition slice_and_reverse (history : json) (start stop : Z) : exc (list json) :=
  match history with
  | JArr l => Ok (rev (py_slice l (Some start) (Some stop)))
  | JStr _ => Raise (attr_error history "reverse")
  | JObj _ =>
      Raise (PyExc KeyError ("slice(" ++ str_of_Z start ++ ", " ++ str_of_Z stop ++ ", None)"))
  | _ => Raise (PyExc TypeError ("'" ++ py_type_name history ++ "' object is not subscriptable"))
  end.

(** [len(history)], reached only once [history] was sliced and reversed as
    a list. *)
Definition history_len (history : json) : Z :=
  match history with
  | JArr l => Z.of_nat (length l)
  | _ => 0
  end.

Definition error_response (e : py_exc) : response :=
  Response 500 (JObj [("success", JBool false); ("error", JStr (exc_msg e))]).

Definition get_history (args : list (string * string)) : store response :=
  st_try
    (let page := arg_int args "page" 1 in
     let per_page := arg_int args "per_page" 20 in
     history ← load_test_history;
     let start := ((page - 1) * per_page)%Z in
     let stop := (start + per_page)%Z in
     paginated_history ← st_lift (slice_and_reverse history start stop);
     let total := history_len history in
     pages ← st_lift (py_floordiv (total + per_page - 1) per_page);
     mret (Response 200 (JObj [("success", JBool true);
                               ("data", JArr paginated_history);
                               ("total", JInt total);
                               ("page", JInt page);
                               ("per_page", JInt per_page);
                               ("pages", JInt pages)])))
    (fun e => mret (error_response e)).

(** The body of a successful answer, for a store holding [l]. *)
Definition history_body (l : list json) (page per_page : Z) : json :=
  let start := ((page - 1) * per_page)%Z in
  JObj [("success", JBool true);
        ("data", JArr (rev (py_slice l (Some start) (Some (start + per_page)%Z))));
        ("total", JInt (Z.of_nat (length l)));
        ("page", JInt page);
        ("per_page", JInt per_page);
        ("pages", JInt ((Z.of_nat (length l) + per_page - 1) / per_page))].

(** A field of a response's JSON body. *)
Definition body_field (r : response) (k : string) : option json :=
  match body r with
  | JObj kvs => dict_get kvs k
  | _ => None
  end.

(** ** Lemmas *)

(** [(n + d - 1) // d] is the ceiling of [n / d]: the least multiple of
    [d] that is at least [n]. *)
Lemma ceil_div_bounds (n d : Z) :
  (0 < d)%Z -> (d * ((n + d - 1) / d) - d < n <= d * ((n + d - 1) / d))%Z.
Proof.
  intros Hd. pose proof (Z.div_mod (n + d - 1) d ltac:(lia)).
  pose proof (Z.mod_pos_bound (n + d - 1) d Hd). lia.
Qed.

(** The page of a list for [page >= 1] and [per_page > 0]: the
    [per_page] records from [(page-1)*per_page] on, in stored order. *)
Lemma page_slice (l : list json) (page per_page : Z) :
  (1 <= page)%Z -> (0 < per_page)%Z ->
  py_slice l (Some ((page - 1) * per_page)%Z) (Some ((page - 1) * per_page + per_page)%Z)
  = take (Z.to_nat per_page) (drop (Z.to_nat ((page - 1) * per_page)) l).
Proof.
  intros Hp Hpp. rewrite py_slice_nonneg by nia. f_equal. f_equal. lia.
Qed.

Lemma get_history_run args f l :
  view f = Some l -> arg_int args "per_page" 20 <> 0%Z ->
  get_history args f =
    (Ok (Response 200 (history_body l (arg_int args "page" 1) (arg_int args "per_page" 20))), f).
Proof.
  intros Hv Hpp. unfold get_history, st_try, load_test_history. st_simpl.
  rewrite (view_history_of f l Hv). simpl. unfold py_floordiv.
  rewrite (proj2 (Z.eqb_neq _ _) Hpp). reflexivity.
Qed.

(** ** Theorems *)

Lemma get_history_read_only args f :
  exists r, get_history args f = (Ok r, f).
Proof.
  unfold get_history, st_try, load_test_history. st_simpl.
  repeat case_match; simplify_eq; eauto.
Qed.

(** C16: [get_history] never raises and never changes the store: every
    request, whatever its arguments and whatever the file holds, gets a
    response and leaves the file as it was. *)
Theorem get_history_total_read_only args f :
  exists r, get_history args f = (Ok r, f).
Proof. apply get_history_read_only. Qed.

(** C7: for [page >= 1] and [per_page > 0], the data of the answer is the
    run of [per_page] records starting at [(page-1)*per_page] in stored
    (oldest-first) order, reversed; [total] is the number of records. *)
Theorem get_history_page args f l page per_page :
  view f = Some l ->
  arg_int args "page" 1 = page -> arg_int args "per_page" 20 = per_page ->
  (1 <= page)%Z -> (0 < per_page)%Z ->
  exists r, get_history args f = (Ok r, f) /\ status r = 200%Z /\
    body_field r "data"
      = Some (JArr (rev (take (Z.to_nat per_page) (drop (Z.to_nat ((page - 1) * per_page)) l)))) /\
    body_field r "total" = Some (JInt (Z.of_nat (length l))).
Proof.
  intros Hv <- <- Hp Hpp. rewrite (get_history_run args f l Hv) by lia.
  eexists; split_and!; [done | done | | done].
  unfold body_field, history_body. simpl. by rewrite page_slice.
Qed.

(** C8: for [per_page > 0], [pages] is the ceiling of [total / per_page],
    and a page past the last one is answered with empty data, not an
    error. *)
Theorem get_history_pages_ceiling args f l page per_page :
  view f = Some l ->
  arg_int args "page" 1 = page -> arg_int args "per_page" 20 = per_page ->
  (0 < per_page)%Z ->
  exists r pages, get_history args f = (Ok r, f) /\
    body_field r "pages" = Some (JInt pages) /\
    (per_page * pages - per_page < Z.of_nat (length l) <= per_page * pages)%Z /\
    ((pages < page)%Z -> body_field r "data" = Some (JArr [])).
Proof.
  intros Hv <- <- Hpp. rewrite (get_history_run args f l Hv) by lia.
  set (n := Z.of_nat (length l)). set (pp := arg_int args "per_page" 20) in *.
  set (p := arg_int args "page" 1).
  pose proof (ceil_div_bounds n pp Hpp) as Hc.
  exists (Response 200 (history_body l p pp)), ((n + pp - 1) / pp)%Z.
  split_and!; [done | reflexivity | lia | lia |].
  intros Hlt. unfold body_field, history_body. simpl.
  assert (Hn : (0 <= n)%Z) by (subst n; lia).
  set (pages := ((n + pp - 1) / pp)%Z) in *.
  assert (Hp : (1 <= p)%Z) by nia.
  assert (Hfar : (n <= (p - 1) * pp)%Z) by nia.
  rewrite page_slice by lia. rewrite drop_ge; [by rewrite take_nil|]. subst n. lia.
Qed.

(** C24: a zero [per_page] makes [//] raise [ZeroDivisionError]; the
    endpoint answers 500 with that message and the store is unchanged. *)
Theorem get_history_zero_per_page args f l :
  view f = Some l -> arg_int args "per_page" 20 = 0%Z ->
  get_history args f = (Ok (error_response zero_division), f).
Proof.
  intros Hv Hpp. unfold get_history, st_try, load_test_history. st_simpl.
  rewrite (view_history_of f l Hv), Hpp. reflexivity.
Qed.

(** C25: page numbers below 1 are not rejected: the answer is 200 and
    echoes the page. Page 0 is always empty (its slice ends at index 0),
    and a negative page counts from the end of the stored list: page [-k]
    holds the [per_page] records that end [k * per_page] records before
    the last, because Python's negative slice indices count from the end. *)
Theorem get_history_nonpositive_page args f l pg p :
  view f = Some l ->
  arg_int args "page" 1 = pg -> arg_int args "per_page" 20 = p ->
  (pg <= 0)%Z -> (0 < p)%Z ->
  exists r, get_history args f = (Ok r, f) /\ status r = 200%Z /\
    body_field r "page" = Some (JInt pg) /\
    (pg = 0%Z -> body_field r "data" = Some (JArr [])) /\
    ((pg < 0)%Z -> Z.to_nat ((1 - pg) * p) <= length l ->
     body_field r "data"
       = Some (JArr (rev (take (Z.to_nat p) (drop (length l - Z.to_nat ((1 - pg) * p)) l))))).
Proof.
  intros Hv <- <- Hpg Hp. rewrite (get_history_run args f l Hv) by lia.
  set (pg := arg_int args "page" 1) in *. set (pp := arg_int args "per_page" 20) in *.
  eexists; split_and!; [done | done | done | |].
  - intros Hz. unfold body_field, history_body. simpl. rewrite Hz.
    unfold py_slice. simpl. replace ((0 - 1) * pp + pp)%Z with 0%Z by lia.
    assert (H0 : py_slice_index (length l) 0 = 0) by (unfold py_slice_index; simpl; lia).
    by rewrite H0.
  - intros Hneg Hlen. unfold body_field, history_body. simpl. do 2 f_equal.
    replace ((pg - 1) * pp)%Z with (- ((1 - pg) * pp))%Z by ring.
    replace (- ((1 - pg) * pp) + pp)%Z with (- (- pg * pp))%Z by ring.
    unfold py_slice. simpl. rewrite !py_slice_index_neg by nia.
    assert (Hs : Z.to_nat ((1 - pg) * pp) = Z.to_nat (- pg * pp) + Z.to_nat pp) by nia.
    do 2 f_equal. lia.
Qed.

(** C28: [request.args.get(k, d, type=int)] reads the query exactly: a
    request [?page=<str p>&per_page=<str q>] is answered as page [p] with
    [q] per page, for every integer [p] and non-zero [q] (the text
    [str()] prints reads back as the integer), and a request without
    arguments as page 1 with 20 per page. *)
Theorem get_history_reads_query p q f l :
  view f = Some l -> q <> 0%Z ->
  get_history [("page", str_of_Z p); ("per_page", str_of_Z q)] f
    = (Ok (Response 200 (history_body l p q)), f) /\
  get_history [] f = (Ok (Response 200 (history_body l 1 20)), f).
Proof.
  intros Hv Hq.
  assert (Hp' : arg_int [("page", str_of_Z p); ("per_page", str_of_Z q)] "page" 1 = p).
  { unfold arg_int. simpl. by rewrite int_of_str_Z. }
  assert (Hq' : arg_int [("page", str_of_Z p); ("per_page", str_of_Z q)] "per_page" 20 = q).
  { unfold arg_int. simpl. by rewrite int_of_str_Z. }
  split.
  - rewrite (get_history_run _ f l Hv) by (by rewrite Hq'). by rewrite Hp', Hq'.
  - by rewrite (get_history_run [] f l Hv).
Qed.

(** ** Witnesses *)

Lemma get_history_page_witness :
  exists r, get_history [("page", "2"); ("per_page", "2")] (FileJson (JArr [JStr "a"; JStr "b"; JStr "c"]))
              = (Ok r, FileJson (JArr [JStr "a"; JStr "b"; JStr "c"])) /\ status r = 200%Z /\
    body_field r "data"
      = Some (JArr (rev (take (Z.to_nat 2) (drop (Z.to_nat ((2 - 1) * 2)) [JStr "a"; JStr "b"; JStr "c"])))) /\
    body_field r "total" = Some (JInt (Z.of_nat (length [JStr "a"; JStr "b"; JStr "c"]))).
Proof. apply get_history_page; (reflexivity || lia). Defined.

Lemma get_history_pages_ceiling_witness :
  exists r pages, get_history [("per_page", " 2 ")] (FileJson (JArr [JStr "a"; JStr "b"; JStr "c"]))
                    = (Ok r, FileJson (JArr [JStr "a"; JStr "b"; JStr "c"])) /\
    body_field r "pages" = Some (JInt pages) /\
    (2 * pages - 2 < Z.of_nat (length [JStr "a"; JStr "b"; JStr "c"]) <= 2 * pages)%Z /\
    ((pages < 1)%Z -> body_field r "data" = Some (JArr [])).
Proof. apply get_history_pages_ceiling; (reflexivity || lia). Defined.

Lemma get_history_nonpositive_page_witness :
  exists r, get_history [("page", "-1"); ("per_page", "1")] (FileJson (JArr [JStr "a"; JStr "b"; JStr "c"]))
              = (Ok r, FileJson (JArr [JStr "a"; JStr "b"; JStr "c"])) /\ status r = 200%Z /\
    body_field r "page" = Some (JInt (-1)) /\
    ((-1)%Z = 0%Z -> body_field r "data" = Some (JArr [])) /\
    ((-1 < 0)%Z -> Z.to_nat ((1 - -1) * 1) <= length [JStr "a"; JStr "b"; JStr "c"] ->
     body_field r "data"
       = Some (JArr (rev (take (Z.to_nat 1) (drop (length [JStr "a"; JStr "b"; JStr "c"] - Z.to_nat ((1 - -1) * 1))
                                                   [JStr "a"; JStr "b"; JStr "c"]))))).
Proof. apply get_history_nonpositive_page; (reflexivity || lia). Defined.

Lemma get_history_reads_query_witness :
  get_history [("page", str_of_Z 3); ("per_page", str_of_Z (-2))] FileAbsent
    = (Ok (Response 200 (history_body [] 3 (-2))), FileAbsent) /\
  get_history [] FileAbsent = (Ok (Response 200 (history_body [] 1 20)), FileAbsent).
Proof. apply (get_history_reads_query 3 (-2) FileAbsent []); [reflexivity | lia]. Defined.

Lemma get_history_zero_per_page_witness :
  get_history [("per_page", "0")] FileAbsent = (Ok (error_response zero_division), FileAbsent).
Proof. apply (get_history_zero_per_page _ _ []); reflexivity. Defined.

End Pagination.
