(* ===== verification/MockResolver.v ===== *)
(** * The mock resolver: generate_mock_response (app.py, lines 229-259)

    The table of canned replies per model and test type, built with
    f-strings that insert [local_time or <fallback>]; the lookup with its
    fall-backs (an unknown model gets the Gemma replies, an unknown type a
    fixed default); and the final [replace('{local_time}', local_time)].
    The theorems give the replies for the spec's scenarios, the fall-backs,
    that the placeholder replacement is a no-op on ordinary times (the time
    is already inserted by the f-strings), the one input where it is not,
    and the inputs that make the resolver raise. *)

From S2P Require Import Prelude PyCore.

Local Open Scope string_scope.

Module MockResolver.

(** ** Operations *)

Definition DEFAULT_MODEL : string := "@cf/google/gemma-3-12b-it".

(** [responses = {...}]: every f-string is evaluated when the dict is
    built, with [str(local_time or "<fallback>")]. *)
Definition mock_responses (local_time : json) : list (string * list (string * string)) :=
  [
   ("@cf/google/gemma-3-12b-it",
     [("urge", "[Gemma模拟] 现在已经" ++ py_str (py_or local_time (JStr "深夜")) ++ "了，夜深了。考虑到您需要充足的睡眠，建议您开始准备休息。可以先做几个深呼吸，放松一下紧张的心情，有助于更快入睡。");
      ("praise", "[Gemma模拟] 做得非常好！决定早睡是对自己健康负责的表现。良好的睡眠会让您明天精力充沛，心情愉快。祝您有个美好的梦！")]);
   ("@cf/meta/llama-3.1-8b-instruct",
     [("urge", "[Llama模拟] 时间不早了，已经" ++ py_str (py_or local_time (JStr "很晚")) ++ "。为了您的身心健康，建议您现在放下手中的事情，准备休息。适当的休息能提高明天的工作效率。");
      ("praise", "[Llama模拟] 很棒的选择！早睡早起身体好。您正在养成一个健康的生活习惯，这将对您的长期健康大有裨益。晚安！")]);
   ("gpt-4",
     [("urge", "[GPT-4模拟] 根据时间" ++ py_str (py_or local_time (JStr "显示")) ++ "，现在是进入睡眠模式的理想时机。我建议您进行一个简短的睡前仪式：调暗灯光、避免电子设备、做一些轻柔的伸展。");
      ("praise", "[GPT-4模拟] 极好的决定！ prioritize sleep 是对个人健康和幸福的重要投资。您会注意到明天的认知功能和情绪状态都有显著改善。")]);
   ("claude-3-sonnet",
     [("urge", "[Claude模拟] 注意到现在是" ++ py_str (py_or local_time (JStr "休息时间")) ++ "。作为您的睡眠助手，我想提醒您，充足的睡眠对于保持身体和心理健康至关重要。");
      ("praise", "[Claude模拟] 我很欣赏您选择现在休息。这种自觉的睡眠习惯展现了您的智慧和对健康的重视。您会为此感到满意的。")])].

Definition DEFAULT_MOCK_RESPONSE : string := "[默认模拟] 该休息了，晚安！".

(** [default_response.replace('{local_time}', local_time)]: the second
    argument must be a [str]. *)
Definition replace_time (response : string) (local_time : json) : exc string :=
  match local_time with
  | JStr t => Ok (py_str_replace "{local_time}" t response)
  | _ => Raise (PyExc TypeError
                 ("replace() argument 2 must be str, not " ++ py_type_name local_time))
  end.

Definition generate_mock_response (model test_type local_time local_hour : json) : exc string :=
  let responses := mock_responses local_time in
  let default_model := default [] (assoc_first responses DEFAULT_MODEL) in
  model_responses ← py_dict_get responses model;
  let model_responses := default default_model model_responses in
  default_response ← py_dict_get model_responses test_type;
  let default_response := default DEFAULT_MOCK_RESPONSE default_response in
  if py_truthy local_time then replace_time default_response local_time
  else Ok default_response.

Definition MOCK_MODELS : list string :=
  ["@cf/google/gemma-3-12b-it"; "@cf/meta/llama-3.1-8b-instruct"; "gpt-4"; "claude-3-sonnet"].

(** ** Lemmas *)

Definition lbrace : ascii := "{"%char.

(** The table's replies hold a ["{"] only where [local_time] does. *)
Lemma mock_responses_no_brace t :
  str_mem lbrace t = false ->
  Forall (fun kv => Forall (fun kv' => str_mem lbrace kv'.2 = false) kv.2) (mock_responses (JStr t)).
Proof.
  intros Ht. unfold mock_responses, py_or.
  destruct (py_truthy (JStr t)); simpl py_str;
    repeat constructor; simpl; rewrite ?str_mem_app, ?Ht; reflexivity.
Qed.

Lemma mock_responses_keys lt : map fst (mock_responses lt) = MOCK_MODELS.
Proof. reflexivity. Qed.

Lemma mock_responses_types lt :
  Forall (fun kv => map fst kv.2 = ["urge"; "praise"]) (mock_responses lt).
Proof. repeat constructor. Qed.

(** The reply table chosen for a string model name. *)
Lemma model_table_Forall (P : list (string * string) -> Prop) lt m :
  Forall (fun kv => P kv.2) (mock_responses lt) ->
  P (default (default [] (assoc_first (mock_responses lt) DEFAULT_MODEL))
             (assoc_first (mock_responses lt) m)).
Proof.
  intros HP. destruct (assoc_first (mock_responses lt) m) as [tbl|] eqn:E.
  - exact (assoc_first_Forall P _ _ _ HP E).
  - destruct (assoc_first (mock_responses lt) DEFAULT_MODEL) as [tbl|] eqn:E'.
    + exact (assoc_first_Forall P _ _ _ HP E').
    + discriminate.
Qed.

Lemma default_mock_no_brace : str_mem lbrace DEFAULT_MOCK_RESPONSE = false.
Proof. reflexivity. Qed.

Lemma mock_default_model (m : string) ty lt lh :
  m ∉ MOCK_MODELS ->
  generate_mock_response (JStr m) ty lt lh = generate_mock_response (JStr DEFAULT_MODEL) ty lt lh.
Proof.
  intros Hm. cbv beta zeta iota delta [generate_mock_response mbind exc_bind py_dict_get].
  rewrite (assoc_first_None (mock_responses lt) m) by (by rewrite mock_responses_keys).
  done.
Qed.

(** ** Theorems *)

(** C9: for string model and type names and a time string without a
    ["{"], the reply is the table entry (the model's, else the default
    model's; the type's, else the default reply) with the time already
    inserted by the f-string: the [replace('{local_time}', ...)] step
    changes nothing. *)
Theorem generate_mock_response_lookup (m ty t : string) lh :
  str_mem lbrace t = false ->
  generate_mock_response (JStr m) (JStr ty) (JStr t) lh =
    Ok (default DEFAULT_MOCK_RESPONSE
          (assoc_first (default (default [] (assoc_first (mock_responses (JStr t)) DEFAULT_MODEL))
                                (assoc_first (mock_responses (JStr t)) m)) ty)).
Proof.
  intros Ht.
  cbv beta zeta iota delta [generate_mock_response mbind exc_bind py_dict_get py_truthy replace_time].
  set (tbl := default (default [] (assoc_first (mock_responses (JStr t)) DEFAULT_MODEL))
                      (assoc_first (mock_responses (JStr t)) m)).
  destruct (negb (bool_decide (t = ""))); [|done]. unfold py_str_replace.
  rewrite bool_decide_false by done. f_equal. apply replace_scan_absent.
  destruct (assoc_first tbl ty) as [r|] eqn:E; simpl; [|apply default_mock_no_brace].
  assert (Htbl : Forall (fun kv' => str_mem lbrace kv'.2 = false) tbl).
  { apply (model_table_Forall (fun tb => Forall (fun kv' => str_mem lbrace kv'.2 = false) tb)).
    by apply mock_responses_no_brace. }
  exact (assoc_first_Forall (fun r => str_mem lbrace r = false) tbl ty r Htbl E).
Qed.

(** C10: a model name outside the table gets exactly the replies of the
    default model [@cf/google/gemma-3-12b-it]. *)
Theorem generate_mock_response_unknown_model (m : string) ty lt lh :
  m ∉ MOCK_MODELS ->
  generate_mock_response (JStr m) ty lt lh = generate_mock_response (JStr DEFAULT_MODEL) ty lt lh.
Proof. apply mock_default_model. Qed.

(** C17: a test type other than [urge] and [praise] gets the fixed
    default reply, for any model name, when the time is a string or
    falsy. *)
Theorem generate_mock_response_unknown_type (m ty : string) lt lh :
  ty ∉ ["urge"; "praise"] -> (py_truthy lt = false \/ exists t, lt = JStr t) ->
  generate_mock_response (JStr m) (JStr ty) lt lh = Ok DEFAULT_MOCK_RESPONSE.
Proof.
  intros Hty Hlt.
  cbv beta zeta iota delta [generate_mock_response mbind exc_bind py_dict_get].
  rewrite assoc_first_None.
  2:{ rewrite (model_table_Forall (fun tb => map fst tb = ["urge"; "praise"])); [done|].
      apply mock_responses_types. }
  simpl. destruct (py_truthy lt) eqn:Htr; [|done].
  destruct Hlt as [Hf|[t ->]]; [congruence|]. simpl. unfold py_str_replace.
  rewrite bool_decide_false by done. f_equal.
Qed.

(** C18: for string model and type names the resolver succeeds exactly
    when [local_time] is a string or falsy: a truthy non-string time (a
    number, a list, [true]) makes [replace] raise [TypeError], although the
    mock path is meant never to fail. *)
Theorem generate_mock_response_ok_iff (m ty : string) lt lh :
  (exists r, generate_mock_response (JStr m) (JStr ty) lt lh = Ok r)
  <-> (py_truthy lt = false \/ exists t, lt = JStr t).
Proof.
  cbv beta zeta iota delta [generate_mock_response mbind exc_bind py_dict_get].
  destruct (py_truthy lt) eqn:Htr; [|split; [by left | eauto]].
  destruct lt; unfold replace_time; split;
    solve [ intros [r Hr]; discriminate | intros [H|[t' H]]; congruence
          | eauto | intros _; eexists; reflexivity ].
Qed.

(** The spec's scenarios. Gemma with type [urge] and time [23:30]
    inserts the time; an unknown model with type [praise] gets Gemma's
    praise; without a time the urge reply carries the fallback phrase. *)
Theorem generate_mock_response_scenarios :
  generate_mock_response (JStr DEFAULT_MODEL) (JStr "urge") (JStr "23:30") JNull
    = Ok "[Gemma模拟] 现在已经23:30了，夜深了。考虑到您需要充足的睡眠，建议您开始准备休息。可以先做几个深呼吸，放松一下紧张的心情，有助于更快入睡。"
  /\ generate_mock_response (JStr "unknown-model") (JStr "praise") JNull JNull
    = Ok "[Gemma模拟] 做得非常好！决定早睡是对自己健康负责的表现。良好的睡眠会让您明天精力充沛，心情愉快。祝您有个美好的梦！"
  /\ generate_mock_response (JStr DEFAULT_MODEL) (JStr "urge") JNull JNull
    = Ok "[Gemma模拟] 现在已经深夜了，夜深了。考虑到您需要充足的睡眠，建议您开始准备休息。可以先做几个深呼吸，放松一下紧张的心情，有助于更快入睡。".
Proof. vm_compute. auto. Qed.

(** ** Witnesses *)

Lemma generate_mock_response_lookup_witness :
  str_mem lbrace "23:30" = false /\
  generate_mock_response (JStr "gpt-4") (JStr "urge") (JStr "23:30") JNull =
    Ok (default DEFAULT_MOCK_RESPONSE
          (assoc_first (default (default [] (assoc_first (mock_responses (JStr "23:30")) DEFAULT_MODEL))
                                (assoc_first (mock_responses (JStr "23:30")) "gpt-4")) "urge")).
Proof. split; [reflexivity|]. apply generate_mock_response_lookup. reflexivity. Defined.

Lemma generate_mock_response_unknown_model_witness :
  ("unknown-model" ∉ MOCK_MODELS) /\
  generate_mock_response (JStr "unknown-model") (JStr "praise") JNull JNull
    = generate_mock_response (JStr DEFAULT_MODEL) (JStr "praise") JNull JNull.
Proof.
  assert (H : "unknown-model" ∉ MOCK_MODELS) by (apply (bool_decide_unpack _); vm_compute; exact I).
  split; [exact H|]. by apply generate_mock_response_unknown_model.
Defined.

Lemma generate_mock_response_unknown_type_witness :
  generate_mock_response (JStr "gpt-4") (JStr "nap") (JStr "23:30") JNull = Ok DEFAULT_MOCK_RESPONSE.
Proof.
  apply generate_mock_response_unknown_type.
  - apply (bool_decide_unpack _). vm_compute. exact I.
  - right. eexists. reflexivity.
Defined.

Lemma generate_mock_response_ok_iff_witness :
  (exists r, generate_mock_response (JStr "gpt-4") (JStr "urge") (JStr "23:30") JNull = Ok r) /\
  ~ (exists r, generate_mock_response (JStr "gpt-4") (JStr "urge") (JInt 23) JNull = Ok r).
Proof.
  split.
  - apply generate_mock_response_ok_iff. right. eexists. reflexivity.
  - intros H%generate_mock_response_ok_iff. destruct H as [H|[t H]]; discriminate.
Defined.

End MockResolver.
