(* ===== verification/RealApi.v ===== *)
(** * The real-API relay: call_real_api (app.py, lines 190-227)

    The payload [{type, localTime?, localHour?}] is posted once to the
    fixed worker URL; the server (the network and the worker) is an oracle
    from the payload sent to the outcome of the POST. A 200 answer yields
    its [message] field; any other status raises an exception carrying the
    status and the body's [error] field; timeouts and network errors get
    their own messages; everything is re-raised as a plain [Exception] by
    the handlers of lines 222-227. *)

From S2P Require Import Prelude PyCore.

Local Open Scope string_scope.

Module RealApi.

(** ** Data *)

Definition API_URL : string := "https://sleep.vuntun.app/api/".
Definition TIMEOUT_SECONDS : Z := 10.

(** The body of an HTTP answer: JSON, or bytes [response.json()] rejects
    with the given decoder message. *)
Inductive http_body : Type :=
| BodyJson (v : json)
| BodyNotJson (decode_error : string).

(** What one [client.post] does: time out ([httpx.TimeoutException], after
    the 10 s of [TIMEOUT_SECONDS]), fail in the network
    ([httpx.NetworkError]), raise another exception, or answer. *)
Inductive http_outcome : Type :=
| HttpTimeout (msg : string)
| HttpNetworkError (msg : string)
| HttpOtherError (msg : string)
| HttpResponse (status_code : Z) (body : http_body).

(** ** Operations *)

(** Lines 194-199. [localTime] is sent only when truthy, [localHour] when
    not [None]. *)
Definition build_payload (test_type local_time local_hour : json) : json :=
  let payload := [("type", test_type)] in
  let payload := if py_truthy local_time then dict_set payload "localTime" local_time else payload in
  let payload := match local_hour with JNull => payload | _ => dict_set payload "localHour" local_hour end in
  JObj payload.

Definition response_json (b : http_body) : exc json :=
  match b with
  | BodyJson v => Ok v
  | BodyNotJson m => Raise (PyExc JSONDecodeError m)
  end.

(** Lines 213-219: the status, then [": <error>"] when the body is a JSON
    object with an [error] key. Every other body makes [response.json()],
    the [in] test or the subscript raise, which the bare [except] drops. *)
Definition error_message (status_code : Z) (b : http_body) : string :=
  let error_msg := "API请求失败 (状态: " ++ str_of_Z status_code ++ ")" in
  match b with
  | BodyJson (JObj kvs) =>
      match dict_get kvs "error" with
      | Some e => error_msg ++ ": " ++ py_str e
      | None => error_msg
      end
  | _ => error_msg
  end.

(** The body of the [try] (lines 193-220). *)
Definition real_api_request (test_type local_time local_hour : json)
    (server : json -> http_outcome) : exc json :=
  match server (build_payload test_type local_time local_hour) with
  | HttpTimeout msg => Raise (PyExc TimeoutException msg)
  | HttpNetworkError msg => Raise (PyExc NetworkError msg)
  | HttpOtherError msg => Raise (PyExc Exception msg)
  | HttpResponse status_code b =>
      if (status_code =? 200)%Z then
        data ← response_json b; py_get data "message" (JStr "无响应内容")
      else Raise (PyExc Exception (error_message status_code b))
  end.

(** The handlers (lines 222-227): the first matching [except] clause. *)
Definition wrap_api_error (e : py_exc) : py_exc :=
  match exc_cls e with
  | TimeoutException => PyExc Exception "API请求超时"
  | NetworkError => PyExc Exception ("网络错误: " ++ exc_msg e)
  | _ => PyExc Exception ("调用API时出错: " ++ exc_msg e)
  end.

Definition call_real_api (test_type local_time local_hour : json)
    (server : json -> http_outcome) : exc json :=
  py_try (real_api_request test_type local_time local_hour server)
         (fun e => Raise (wrap_api_error e)).

(** The payload's fields, read back. *)
Definition payload_field (p : json) (k : string) : option json :=
  match p with JObj kvs => dict_get kvs k | _ => None end.

(** ** Theorems *)

(** C11: on an HTTP answer to the payload, a 200 whose body is a JSON
    object yields its [message] field, or the placeholder text when the
    field is absent (any JSON value is passed on, not only strings); any
    other status makes [call_real_api] raise a plain [Exception] whose
    message is the status message of lines 213-217, wrapped a second time
    by the generic handler of line 227. *)
Theorem call_real_api_status_error test_type local_time local_hour server code b :
  server (build_payload test_type local_time local_hour) = HttpResponse code b ->
  (code <> 200%Z ->
   call_real_api test_type local_time local_hour server
     = Raise (PyExc Exception ("调用API时出错: " ++ error_message code b))) /\
  (forall kvs, code = 200%Z -> b = BodyJson (JObj kvs) ->
   call_real_api test_type local_time local_hour server
     = Ok (default (JStr "无响应内容") (dict_get kvs "message"))).
Proof.
  intros Hs. unfold call_real_api, real_api_request. rewrite Hs. split.
  - intros Hc. by rewrite (proj2 (Z.eqb_neq _ _) Hc).
  - by intros kvs -> ->.
Qed.

(** C20: whatever the server does, [call_real_api] either returns or
    raises a plain [Exception] with one of the three messages of lines
    222-227: timeouts, network errors and the rest are told apart only by
    their text, never by their class. *)
Theorem call_real_api_errors_wrapped test_type local_time local_hour server :
  (exists v, call_real_api test_type local_time local_hour server = Ok v) \/
  call_real_api test_type local_time local_hour server = Raise (PyExc Exception "API请求超时") \/
  (exists m, call_real_api test_type local_time local_hour server
               = Raise (PyExc Exception ("网络错误: " ++ m))) \/
  (exists m, call_real_api test_type local_time local_hour server
               = Raise (PyExc Exception ("调用API时出错: " ++ m))).
Proof.
  unfold call_real_api, py_try.
  destruct (real_api_request _ _ _ _) as [v|[[] m]]; unfold wrap_api_error; simpl; eauto 10.
Qed.

(** C21: the payload always carries [type]; it carries [localTime] exactly
    when the time is truthy (an empty string is dropped) and [localHour]
    exactly when the hour is not [None] (an hour of 0 is sent). *)
Theorem build_payload_fields test_type local_time local_hour :
  payload_field (build_payload test_type local_time local_hour) "type" = Some test_type /\
  payload_field (build_payload test_type local_time local_hour) "localTime"
    = (if py_truthy local_time then Some local_time else None) /\
  payload_field (build_payload test_type local_time local_hour) "localHour"
    = (match local_hour with JNull => None | _ => Some local_hour end).
Proof.
  unfold build_payload, payload_field.
  destruct (py_truthy local_time), local_hour; simpl; rewrite ?dict_get_set; simpl;
    repeat case_bool_decide; simplify_eq; done.
Qed.

(** ** Witnesses *)

(** The spec's scenario, HTTP 503 with [{"error": "rate limited"}], and a
    200 answer. *)
Lemma call_real_api_status_error_witness :
  call_real_api (JStr "urge") JNull JNull
    (fun _ => HttpResponse 503 (BodyJson (JObj [("error", JStr "rate limited")])))
  = Raise (PyExc Exception "调用API时出错: API请求失败 (状态: 503): rate limited") /\
  call_real_api (JStr "praise") (JStr "23:30") (JInt 23)
    (fun _ => HttpResponse 200 (BodyJson (JObj [("message", JStr "晚安")])))
  = Ok (JStr "晚安").
Proof.
  split.
  - rewrite (proj1 (call_real_api_status_error _ _ _ _ 503 (BodyJson (JObj [("error", JStr "rate limited")]))
                      eq_refl) ltac:(lia)).
    reflexivity.
  - apply (proj2 (call_real_api_status_error _ _ _ _ 200 (BodyJson (JObj [("message", JStr "晚安")])) eq_refl)
             [("message", JStr "晚安")]); reflexivity.
Defined.

End RealApi.
