(* ===== verification/Orchestrator.v ===== *)
(** * The test endpoint: POST /api/test (app.py, lines 129-188)

    [test_endpoint] reads the request's JSON, applies the defaults,
    rejects an empty prompt with 400, resolves the reply with the mock
    resolver or the real API, times it, persists the record with
    [add_test_record] and answers 200; any exception on the way becomes a
    500 answer. The environment supplies what the code takes from the
    outside world: the fresh [uuid4], the ISO time, the two wall-clock
    readings around the API call, the server and how the history write
    goes. *)

From S2P Require Import Prelude PyCore HistoryStore Pagination MockResolver RealApi.

Local Open Scope string_scope.

Module Orchestrator.
Import HistoryStore MockResolver RealApi.

(** ** Data *)

(** [request.json]: werkzeug either rejects the body (wrong content type,
    malformed JSON), raising an HTTP exception whose [str] is given, or
    parses it. *)
Inductive request_body : Type :=
| BodyRejected (msg : string)
| RequestJson (data : json).

(** The outside world during one request. Clock readings are in
    microseconds of wall-clock time ([datetime.now()]). *)
Record env : Type := Env {
  env_uuid : string;                      (* str(uuid.uuid4()) *)
  env_timestamp : string;                 (* datetime.now().isoformat() at persistence *)
  env_start : Z;                          (* datetime.now() before the API call *)
  env_end : Z;                            (* datetime.now() after the API call *)
  env_server : json -> http_outcome;      (* the POST to API_URL *)
  env_write : write_outcome               (* save_test_history's open + dump *)
}.

(** ** Operations *)

Definition bad_request : response :=
  Response 400 (JObj [("success", JBool false); ("error", JStr "Prompt 不能为空")]).

Definition server_error (e : py_exc) : response :=
  Response 500 (JObj [("success", JBool false); ("error", JStr ("服务器错误: " ++ exc_msg e))]).

Definition request_json (req : request_body) : exc json :=
  match req with
  | BodyRejected msg => Raise (PyExc HTTPException msg)
  | RequestJson data => Ok data
  end.

(** Lines 150-159: the reply and its response time. *)
Definition resolve (e : env) (use_mock model test_type local_time local_hour : json)
    : exc (json * json) :=
  if py_truthy use_mock then
    response ← generate_mock_response model test_type local_time local_hour;
    mret (JStr response, JFloat "0.5")
  else
    response ← call_real_api test_type local_time local_hour (env_server e);
    mret (response, JFloat (seconds_repr (env_end e - env_start e))).

(** Lines 162-171. *)
Definition test_record (model prompt response test_type local_time local_hour use_mock
    response_time : json) : list (string * json) :=
  [("model", model); ("prompt", prompt); ("response", response);
   ("type", test_type); ("local_time", local_time);
   ("local_hour", local_hour); ("use_mock", use_mock);
   ("response_time", response_time)].

Definition test_endpoint (req : request_body) (e : env) : store response :=
  st_try
    (data ← st_lift (request_json req);
     use_mock ← st_lift (py_get data "use_mock" (JBool false));
     model ← st_lift (py_get data "model" (JStr DEFAULT_MODEL));
     prompt ← st_lift (py_get data "prompt" (JStr ""));
     test_type ← st_lift (py_get data "type" (JStr "urge"));
     local_time ← st_lift (py_get data "local_time" JNull);
     local_hour ← st_lift (py_get data "local_hour" JNull);
     if negb (py_truthy prompt) then mret bad_request
     else
       rt ← st_lift (resolve e use_mock model test_type local_time local_hour);
       let '(response, response_time) := rt in
       let record := test_record model prompt response test_type local_time local_hour
                                 use_mock response_time in
       saved_record ← add_test_record record (env_uuid e) (env_timestamp e) (env_write e);
       mret (Response 200 (JObj [("success", JBool true);
                                 ("response", response);
                                 ("test_id", default JNull (dict_get saved_record "id"));
                                 ("response_time", response_time);
                                 ("use_mock", use_mock)])))
    (fun ex => mret (server_error ex)).

(** What the request's fields come to after [data.get(k, default)]. *)
Definition field (kvs : list (string * json)) (k : string) (d : json) : json :=
  default d (dict_get kvs k).

Definition resolve_of (e : env) (kvs : list (string * json)) : exc (json * json) :=
  resolve e (field kvs "use_mock" (JBool false)) (field kvs "model" (JStr DEFAULT_MODEL))
    (field kvs "type" (JStr "urge")) (field kvs "local_time" JNull) (field kvs "local_hour" JNull).

Definition record_of (kvs : list (string * json)) (response response_time : json)
    : list (string * json) :=
  test_record (field kvs "model" (JStr DEFAULT_MODEL)) (field kvs "prompt" (JStr "")) response
    (field kvs "type" (JStr "urge")) (field kvs "local_time" JNull) (field kvs "local_hour" JNull)
    (field kvs "use_mock" (JBool false)) response_time.

Definition success_response (kvs : list (string * json)) (reply response_time : json)
    (uuid : string) : response :=
  Response 200 (JObj [("success", JBool true); ("response", reply);
                      ("test_id", JStr uuid); ("response_time", response_time);
                      ("use_mock", field kvs "use_mock" (JBool false))]).

(** The script's start-up (lines 323-326): an absent history file is
    created holding [[]]. *)
Definition main_startup (w : write_outcome) : store unit :=
  f ← st_get;
  match f with
  | FileAbsent => save_test_history (JArr []) w
  | _ => mret tt
  end.

(** What lines 328-330 print before [app.run]. *)
Definition startup_banner : list string :=
  ["启动睡眠API测试工具..."; "访问地址: http://localhost:5001"; py_str_mul "-" 50].

(** The [__main__] block up to [app.run] (lines 323-330): the lines it
    prints, or the [OSError] of the initial save, which ends the script
    before anything is printed and before the server starts. *)
Definition main (w : write_outcome) : store (list string) :=
  _ ← main_startup w; mret startup_banner.

(** One step of the application on the history file: start-up, a test
    request, or a history request, each with any input and environment. *)
Inductive app_step : file_state -> file_state -> Prop :=
| step_startup w f : app_step f (main_startup w f).2
| step_test req e f : app_step f (test_endpoint req e f).2
| step_history args f : app_step f (Pagination.get_history args f).2.

(** An environment for concrete runs: the server answers HTTP 503. *)
Definition sample_env (w : write_outcome) : env :=
  Env "u1" "2025-01-01T23:30:00" 1000000 1250000
      (fun _ => HttpResponse 503 (BodyJson (JObj [("error", JStr "rate limited")]))) w.

(** ** Lemmas *)

(** The endpoint on a JSON object with a non-empty prompt: resolve, then
    persist, and turn any exception into a 500 answer. *)
Lemma test_endpoint_run kvs e f :
  py_truthy (field kvs "prompt" (JStr "")) = true ->
  test_endpoint (RequestJson (JObj kvs)) e f =
    match resolve_of e kvs with
    | Raise ex => (Ok (server_error ex), f)
    | Ok (response, rt) =>
        match add_test_record (record_of kvs response rt) (env_uuid e) (env_timestamp e)
                (env_write e) f with
        | (Ok saved, f') =>
            (Ok (Response 200 (JObj [("success", JBool true); ("response", response);
                                     ("test_id", default JNull (dict_get saved "id"));
                                     ("response_time", rt);
                                     ("use_mock", field kvs "use_mock" (JBool false))])), f')
        | (Raise ex, f') => (Ok (server_error ex), f')
        end
    end.
Proof.
  intros Hp. unfold test_endpoint, st_try, field, resolve_of, record_of in *. st_simpl.
  rewrite Hp. simpl.
  destruct (resolve _ _ _ _ _ _) as [[response rt]|ex]; simpl; [|done].
  destruct (add_test_record _ _ _ _ f) as [[saved|ex] f']; done.
Qed.

(** A test request leaves the file as it was or as one [add_test_record]
    leaves it. *)
Lemma test_endpoint_state req e f :
  (test_endpoint req e f).2 = f \/
  exists record, (test_endpoint req e f).2
                 = (add_test_record record (env_uuid e) (env_timestamp e) (env_write e) f).2.
Proof.
  unfold test_endpoint, st_try. st_simpl.
  repeat case_match; simplify_eq/=; eauto;
    right; eexists; match goal with H : add_test_record _ _ _ _ _ = _ |- _ => by rewrite H end.
Qed.

Lemma main_startup_inv w f : store_inv f -> store_inv (main_startup w f).2.
Proof.
  unfold main_startup. st_simpl. intros Hinv.
  destruct f; simpl; [destruct w|..]; unfold store_inv; simpl; try lia; done.
Qed.

Lemma stamped_id record uuid ts : dict_get (stamp_record record uuid ts) "id" = Some (JStr uuid).
Proof. unfold stamp_record. by rewrite dict_get_set_ne, dict_get_set_eq. Qed.

(** ** Theorems *)

Lemma test_endpoint_no_prompt kvs e f :
  py_truthy (field kvs "prompt" (JStr "")) = false ->
  test_endpoint (RequestJson (JObj kvs)) e f = (Ok bad_request, f).
Proof.
  intros Hp. unfold test_endpoint, st_try, field in *. st_simpl. by rewrite Hp.
Qed.

(** C4: a request whose prompt is missing, empty or otherwise falsy is
    answered 400 before any resolution or persistence: the store is
    unchanged and the answer does not depend on the environment (no
    network call, no write). *)
Theorem test_endpoint_empty_prompt kvs e f :
  py_truthy (field kvs "prompt" (JStr "")) = false ->
  test_endpoint (RequestJson (JObj kvs)) e f = (Ok bad_request, f).
Proof. apply test_endpoint_no_prompt. Qed.

(** C5: a successful test request answers 200 with the reply, the fresh
    id as [test_id], the response time and the mock flag, and appends the
    record (every request field, the reply, the time, the id and the
    timestamp) to the abstract log. *)
Theorem test_endpoint_persists kvs e f l reply rt :
  view f = Some l -> py_truthy (field kvs "prompt" (JStr "")) = true ->
  env_write e = WriteOk -> resolve_of e kvs = Ok (reply, rt) ->
  test_endpoint (RequestJson (JObj kvs)) e f =
    (Ok (success_response kvs reply rt (env_uuid e)),
     FileJson (JArr (Spec.append HISTORY_LIMIT
       (JObj (stamp_record (record_of kvs reply rt) (env_uuid e) (env_timestamp e))) l))).
Proof.
  intros Hv Hp Hw Hr. rewrite test_endpoint_run, Hr by done.
  rewrite (add_test_record_run _ _ _ _ _ l Hv), Hw. cbn zeta iota beta.
  by rewrite stamped_id.
Qed.

(** C12: when resolution raises (mock [TypeError], API error), the answer
    is 500 with the error's text and nothing is written: no record of a
    reply that was never obtained. *)
Theorem test_endpoint_resolver_error kvs e f ex :
  py_truthy (field kvs "prompt" (JStr "")) = true -> resolve_of e kvs = Raise ex ->
  test_endpoint (RequestJson (JObj kvs)) e f = (Ok (server_error ex), f).
Proof. intros Hp Hr. by rewrite test_endpoint_run, Hr. Qed.

(** C22: when the history write fails, the answer is 500 with the
    [OSError]'s text; a failed [open] leaves the file, a failure after
    truncation leaves it unreadable, losing every earlier record. *)
Theorem test_endpoint_write_error kvs e f l reply rt msg :
  view f = Some l -> py_truthy (field kvs "prompt" (JStr "")) = true ->
  resolve_of e kvs = Ok (reply, rt) ->
  (env_write e = OpenFails msg ->
   test_endpoint (RequestJson (JObj kvs)) e f = (Ok (server_error (PyExc OSError msg)), f)) /\
  (env_write e = WriteFailsAfterTruncate msg ->
   test_endpoint (RequestJson (JObj kvs)) e f
     = (Ok (server_error (PyExc OSError msg)), FileUnreadable)).
Proof.
  intros Hv Hp Hr. rewrite test_endpoint_run, Hr by done.
  rewrite (add_test_record_run _ _ _ _ _ l Hv). split; intros ->; done.
Qed.

(** C19: on the mock path the answer and the store do not depend on the
    server nor on the clock: no network call is made. *)
Theorem test_endpoint_mock_offline kvs e e' f :
  py_truthy (field kvs "use_mock" (JBool false)) = true ->
  env_uuid e = env_uuid e' -> env_timestamp e = env_timestamp e' -> env_write e = env_write e' ->
  test_endpoint (RequestJson (JObj kvs)) e f = test_endpoint (RequestJson (JObj kvs)) e' f.
Proof.
  intros Hm Hu Ht Hw.
  destruct (py_truthy (field kvs "prompt" (JStr ""))) eqn:Hp;
    [|by rewrite !test_endpoint_no_prompt].
  rewrite !test_endpoint_run by done.
  assert (resolve_of e kvs = resolve_of e' kvs) as ->.
  { unfold resolve_of, resolve. by rewrite Hm. }
  by rewrite Hu, Ht, Hw.
Qed.

(** C26: on the real path the response time is the wall-clock difference;
    when the clock steps back during the call it is negative, although the
    spec promises a time [>= 0]. *)
Theorem resolve_negative_response_time e use_mock model test_type local_time local_hour reply :
  py_truthy use_mock = false ->
  call_real_api test_type local_time local_hour (env_server e) = Ok reply ->
  (env_end e < env_start e)%Z ->
  exists s, resolve e use_mock model test_type local_time local_hour
            = Ok (reply, JFloat (String "-" s)).
Proof.
  intros Hm Hc Hlt. unfold resolve. rewrite Hm, Hc. simpl.
  unfold seconds_repr. rewrite (proj2 (Z.ltb_lt (env_end e - env_start e) 0)) by lia.
  rewrite (proj2 (Z.eqb_neq (Z.abs (env_end e - env_start e)) 0)) by lia.
  repeat case_match; eexists; reflexivity.
Qed.

(** C6: in every state reachable from an absent history file by any
    sequence of start-ups, test requests and history requests (with any
    inputs, ids, clocks, server answers and write outcomes), the file holds
    at most 100 records. *)
Theorem reachable_store_bounded f :
  rtc app_step FileAbsent f -> store_inv f.
Proof.
  intros Hr. assert (Hinv : store_inv FileAbsent) by (unfold store_inv; simpl; lia).
  induction Hr as [|f1 f2 f3 Hs _ IH]; [done|]. apply IH. inversion Hs; subst.
  - by apply main_startup_inv.
  - destruct (test_endpoint_state req e f1) as [->|[record ->]]; [done|].
    by apply add_test_record_inv.
  - by destruct (Pagination.get_history_read_only args f1) as [r ->].
Qed.

(** C27: a request body that is JSON but not an object (a list, a string,
    [null]) makes the first [data.get] raise [AttributeError]: 500, store
    unchanged. *)
Theorem test_endpoint_not_an_object data e f :
  (forall kvs, data <> JObj kvs) ->
  test_endpoint (RequestJson data) e f = (Ok (server_error (attr_error data "get")), f).
Proof. intros Hd. destruct data; try done. by destruct (Hd kvs). Qed.

(** C34: the [__main__] block prints its banner (whose last line is fifty
    dashes) exactly when its start-up succeeds. A successful start-up
    turns an absent file into [[]] and leaves an existing file (of any
    content) untouched; it always succeeds on an existing file or with a
    working write. The only way it fails is the initial save of an absent
    file raising [OSError], which ends the script before it prints or
    serves: the file is then still absent (a failed [open]) or truncated
    and unreadable (a failed write). *)
Theorem main_startup_outcomes w f :
  (forall out f', main w f = (Ok out, f') ->
     out = startup_banner /\ f' = match f with FileAbsent => FileJson (JArr []) | _ => f end) /\
  (forall e f', main w f = (Raise e, f') ->
     f = FileAbsent /\ exc_cls e = OSError /\ (f' = FileAbsent \/ f' = FileUnreadable)) /\
  ((f <> FileAbsent \/ w = WriteOk) -> exists f', main w f = (Ok startup_banner, f')) /\
  String.length (py_str_mul "-" 50) = 50.
Proof.
  unfold main, main_startup, save_test_history. st_simpl.
  destruct f; [destruct w|..]; simpl; split_and!; try reflexivity;
    try (intros ?? [=]; subst; naive_solver);
    try (intros _; eexists; reflexivity);
    intros [H|H]; congruence.
Qed.

(** ** Witnesses *)

Lemma test_endpoint_empty_prompt_witness :
  test_endpoint (RequestJson (JObj [("prompt", JStr ""); ("use_mock", JBool true)]))
    (sample_env WriteOk) FileAbsent = (Ok bad_request, FileAbsent).
Proof. apply test_endpoint_empty_prompt. reflexivity. Defined.

Lemma test_endpoint_persists_witness :
  test_endpoint (RequestJson (JObj [("prompt", JStr "hi"); ("type", JStr "nap"); ("use_mock", JBool true)]))
    (sample_env WriteOk) FileAbsent =
  (Ok (success_response [("prompt", JStr "hi"); ("type", JStr "nap"); ("use_mock", JBool true)]
         (JStr DEFAULT_MOCK_RESPONSE) (JFloat "0.5") "u1"),
   FileJson (JArr (Spec.append HISTORY_LIMIT
     (JObj (stamp_record (record_of [("prompt", JStr "hi"); ("type", JStr "nap"); ("use_mock", JBool true)]
                            (JStr DEFAULT_MOCK_RESPONSE) (JFloat "0.5"))
                         "u1" "2025-01-01T23:30:00")) []))).
Proof. apply test_endpoint_persists; reflexivity. Defined.

(** The spec's scenario: the API answers 503 "rate limited"; the endpoint
    answers 500 and writes nothing. *)
Lemma test_endpoint_resolver_error_witness :
  test_endpoint (RequestJson (JObj [("prompt", JStr "hi")])) (sample_env WriteOk)
    (FileJson (JArr [])) =
  (Ok (server_error (PyExc Exception "调用API时出错: API请求失败 (状态: 503): rate limited")),
   FileJson (JArr [])).
Proof. apply test_endpoint_resolver_error; reflexivity. Defined.

Lemma test_endpoint_write_error_witness :
  test_endpoint (RequestJson (JObj [("prompt", JStr "hi"); ("use_mock", JBool true)]))
    (sample_env (OpenFails "Permission denied")) FileAbsent
  = (Ok (server_error (PyExc OSError "Permission denied")), FileAbsent).
Proof.
  apply (test_endpoint_write_error _ _ _ [] (JStr (default "" (assoc_first
    (default [] (assoc_first (mock_responses JNull) DEFAULT_MODEL)) "urge"))) (JFloat "0.5")
    "Permission denied"); reflexivity.
Defined.

Lemma test_endpoint_mock_offline_witness :
  test_endpoint (RequestJson (JObj [("prompt", JStr "hi"); ("use_mock", JInt 1)]))
    (sample_env WriteOk) FileAbsent
  = test_endpoint (RequestJson (JObj [("prompt", JStr "hi"); ("use_mock", JInt 1)]))
    (Env "u1" "2025-01-01T23:30:00" 0 0 (fun _ => HttpTimeout "timed out") WriteOk) FileAbsent.
Proof. apply test_endpoint_mock_offline; reflexivity. Defined.

Lemma resolve_negative_response_time_witness :
  exists s, resolve (Env "u1" "t" 2000000 500000
                       (fun _ => HttpResponse 200 (BodyJson (JObj [("message", JStr "ok")]))) WriteOk)
              (JBool false) (JStr DEFAULT_MODEL) (JStr "urge") JNull JNull
            = Ok (JStr "ok", JFloat (String "-" s)).
Proof. apply resolve_negative_response_time; reflexivity || (simpl; lia). Defined.

Lemma reachable_store_bounded_witness :
  store_inv (test_endpoint (RequestJson (JObj [("prompt", JStr "hi"); ("use_mock", JBool true)]))
               (sample_env WriteOk) (main_startup WriteOk FileAbsent).2).2.
Proof.
  apply reachable_store_bounded.
  eapply rtc_l; [apply (step_startup WriteOk)|]. apply rtc_once, step_test.
Defined.

Lemma test_endpoint_not_an_object_witness :
  test_endpoint (RequestJson JNull) (sample_env WriteOk) FileAbsent
  = (Ok (server_error (attr_error JNull "get")), FileAbsent).
Proof. apply test_endpoint_not_an_object. intros kvs H. discriminate. Defined.

Lemma main_startup_outcomes_witness :
  (exists f', main WriteOk FileAbsent = (Ok startup_banner, f')) /\
  (forall e f', main (WriteFailsAfterTruncate "No space left on device") FileAbsent = (Raise e, f') ->
     FileAbsent = FileAbsent /\ exc_cls e = OSError /\ (f' = FileAbsent \/ f' = FileUnreadable)).
Proof.
  split.
  - apply (main_startup_outcomes WriteOk FileAbsent). by right.
  - apply (main_startup_outcomes (WriteFailsAfterTruncate "No space left on device") FileAbsent).
Defined.

End Orchestrator.
