(* ===== verification/Catalog.v ===== *)
(** * The static catalogs: GET / and GET /api/templates (app.py, lines 46-127 and 293-321)

    The index page hands [render_template] the model catalog (lines
    50-73), the prompt-template catalog (lines 76-119) and the last five
    history records, [load_test_history()[-5:]] (line 122), which is not
    guarded by a [try]: an exception there becomes Flask's own 500 page.
    [get_templates] answers a second, constant catalog. The rendering of
    [index.html] is Jinja's and not modelled: [index] yields the context
    the view passes to it. *)

From S2P Require Import Prelude PyCore HistoryStore.

Local Open Scope string_scope.

Module Catalog.
Import HistoryStore.

(** ** Data *)

(** A prompt template: a dict with the keys [id], [name], [type] and
    [template], in that order. *)
Definition template_entry (id name type template : string) : json :=
  JObj [("id", JStr id); ("name", JStr name); ("type", JStr type); ("template", JStr template)].

(** Lines 50-73: provider name to model identifiers. *)
Definition models : list (string * list string) :=
  [("Cloudflare Workers AI",
     ["@cf/google/gemma-3-12b-it"; "@cf/meta/llama-3.1-8b-instruct"; "@cf/mistral/mistral-7b-instruct"; "@cf/thebloke/codellama-7b-instruct"]);
   ("OpenAI",
     ["gpt-3.5-turbo"; "gpt-4"; "gpt-4-turbo-preview"; "gpt-4o"]);
   ("Anthropic Claude",
     ["claude-3-opus"; "claude-3-sonnet"; "claude-3-haiku"; "claude-2.1"]);
   ("其他模型",
     ["custom-model-1"; "custom-model-2"])].

(** Lines 76-119. *)
Definition prompt_templates : list json :=
  [template_entry "default_urge" "默认督促模式" "urge"
     "你是一个睡眠教练，通过对话帮助用户建立良好的睡眠习惯。

时间信息：
- 用户提供的本地时间：{local_time}
- 已解析的小时（24小时制）：{local_hour}

重要：不要猜测或生成未提供的当前时间；仅根据上面提供或解析到的时间判断。

行为指导：
- 如果已过23:00：用温和但坚定的语气督促用户上床休息，避免责备，提供2-3条具体、易执行的放松建议（例如温和伸展、渐进性肌肉放松、4-4-8呼吸法）。
- 如果未到23:00：用关心的语气询问白天的事情是否已完成？是否准备好进行睡前仪式？如果用户尚未完成，给1-2条可行的快速收尾建议，并给1-2条简单的睡前准备建议。

其他要求：始终保持关心、支持的口吻；回复自然简短、不超过100字；不使用Markdown或代码格式；不要提供医学诊断或强制性指令。";
   template_entry "default_praise" "默认表扬模式" "praise"
     "你是一个睡眠教练，任务是通过对话帮助用户改善睡眠习惯。

用户决定现在就去睡觉。请积极鼓励用户的这个决定，称赞他们照顾自己健康的行为，并祝愿他们有个好梦。

保持语气温暖、鼓励。回复要简短，不超过40字。

重要：不要猜测或生成未提供的当前时间，仅根据下面的已提供时间判断。";
   template_entry "gentle_reminder" "温柔提醒" "urge"
     "现在已经{local_time}了，夜深了。考虑到您明天还需要精力充沛地工作，建议您开始准备休息。可以先做几个深呼吸，放松一下紧张的心情。";
   template_entry "detailed_guide" "详细指导" "urge"
     "现在是{local_time}，让我为您提供一个简单的睡前放松方案：1）调暗房间灯光，营造睡眠氛围；2）放下手机，避免蓝光刺激；3）做5分钟轻柔伸展；4）喝杯温水助眠。这样能让您更快进入深度睡眠。"].

(** Lines 297-310, the catalog of [get_templates]. *)
Definition templates : list json :=
  [template_entry "custom_urge" "自定义督促" "urge"
     "现在是{local_time}，提醒用户该休息了。";
   template_entry "custom_praise" "自定义表扬" "praise"
     "表扬用户决定早睡。"].

(** What [index] hands to [render_template('index.html', ...)]. *)
Record index_page : Type := IndexPage {
  page_models : list (string * list string);
  page_prompt_templates : list json;
  page_recent_tests : json
}.

(** ** Operations *)

(** A UTF-8 continuation byte, [0b10xxxxxx]. *)
Definition is_cont_byte (c : ascii) : bool :=
  let n := nat_of_ascii c in ((128 <=? n) && (n <? 192))%nat.

(** The code points of a UTF-8 byte string, each as its bytes: a byte
    joins the code point that follows it when that one starts with a
    continuation byte. Python slices a [str] by code points. *)
Definition code_points (cs : list ascii) : list (list ascii) :=
  foldr (fun c gs =>
           match gs with
           | (d :: _) as g :: gs' => if is_cont_byte d then (c :: g) :: gs' else [c] :: gs
           | _ => [c] :: gs
           end) [] cs.

(** [s[start:stop]] on a [str]. *)
Definition py_str_slice (s : string) (start stop : option Z) : string :=
  String.string_of_list_ascii (concat (py_slice (code_points (String.list_ascii_of_string s)) start stop)).

(** [history[-5:]] on what [json.load] returned: a list or a string
    slices; a dict looks the slice up as a key (Python 3.12 and later);
    anything else is not subscriptable. *)
Definition recent_slice (history : json) : exc json :=
  match history with
  | JArr l => Ok (JArr (py_slice l (Some (-5)%Z) None))
  | JStr s => Ok (JStr (py_str_slice s (Some (-5)%Z) None))
  | JObj _ => Raise (PyExc KeyError "slice(-5, None, None)")
  | _ => Raise (PyExc TypeError ("'" ++ py_type_name history ++ "' object is not subscriptable"))
  end.

(** The view of [/] (lines 46-127), up to the call of [render_template]. *)
Definition index : store index_page :=
  history ← load_test_history;
  recent_tests ← st_lift (recent_slice history);
  mret (IndexPage models prompt_templates recent_tests).

(** The view of [/api/templates] (lines 293-321): the [try] body cannot
    raise. *)
Definition get_templates : store response :=
  st_try (mret (Response 200 (JObj [("success", JBool true); ("data", JArr templates)])))
         (fun e => mret (Response 500 (JObj [("success", JBool false); ("error", JStr (exc_msg e))]))).

(** ** Lemmas *)

Lemma recent_slice_list l : recent_slice (JArr l) = Ok (JArr (lastn 5 l)).
Proof. unfold recent_slice. by rewrite (py_slice_neg_suffix l 5). Qed.

Lemma index_run f :
  index f = (match recent_slice (history_of f) with
             | Ok r => Ok (IndexPage models prompt_templates r)
             | Raise e => Raise e
             end, f).
Proof. unfold index, load_test_history. st_simpl. by destruct (recent_slice _). Qed.

(** ** Theorems *)

(** C29: the index page never changes the file, whatever it holds. When
    the file holds a list (or is absent or unreadable, read as [[]]), the
    page shows its last five records in stored order, oldest of the five
    first, beside the two static catalogs. [load_test_history()[-5:]] is
    outside any [try]: a file holding any JSON object makes the page raise
    [KeyError], and any number, boolean or [null] makes it raise
    [TypeError] naming the type, so Flask answers its own 500 page. *)
Theorem index_recent_tests f l :
  (index f).2 = f /\
  (view f = Some l ->
   (index f).1 = Ok (IndexPage models prompt_templates (JArr (lastn 5 l))) /\
   length (lastn 5 l) = Nat.min 5 (length l)) /\
  (forall kvs, index (FileJson (JObj kvs))
                 = (Raise (PyExc KeyError "slice(-5, None, None)"), FileJson (JObj kvs))) /\
  (forall v, match v with JNull | JBool _ | JInt _ | JFloat _ => True | _ => False end ->
   index (FileJson v)
     = (Raise (PyExc TypeError ("'" ++ py_type_name v ++ "' object is not subscriptable")), FileJson v)).
Proof.
  split_and!.
  - rewrite index_run. done.
  - intros Hv. rewrite index_run, (view_history_of f l Hv), recent_slice_list.
    split; [done|]. rewrite length_lastn. lia.
  - intros kvs. by rewrite index_run.
  - intros v Hv. rewrite index_run. by destruct v.
Qed.

(** ** Witnesses *)

Lemma index_recent_tests_witness :
  (index (FileJson (JArr (map JInt [1; 2; 3; 4; 5; 6; 7]%Z)))).1
    = Ok (IndexPage models prompt_templates (JArr (lastn 5 (map JInt [1; 2; 3; 4; 5; 6; 7]%Z)))).
Proof.
  apply (proj1 (proj1 (proj2 (index_recent_tests (FileJson (JArr (map JInt [1; 2; 3; 4; 5; 6; 7]%Z)))
                                                 (map JInt [1; 2; 3; 4; 5; 6; 7]%Z))) eq_refl)).
Defined.

End Catalog.
