(* ===== verification/Concurrency.v ===== *)
(** * Concurrent test requests on the history file (app.py, lines 17-44 and 331)

    [app.run(debug=True)] serves each request on its own thread (the
    Werkzeug development server is threaded), and [add_test_record] is an
    unsynchronised read-modify-write of the history file. A request's
    append is split here into the atomic steps that other requests can
    interleave with: the [json.load] of [load_test_history]; the
    [open(..., 'w')] of [save_test_history], which truncates the file
    before anything is written; and the [json.dump] that fills it. A
    schedule is an explicit list of thread indices, run by [run_schedule];
    [conc_step] is the same step as a relation, for reachability.

    The theorems: two interleaved requests that both answer 200 can lose
    one record (lost update) or, when one loads while the other's file is
    truncated, the whole history; under every interleaving the file still
    holds at most 100 records; and under a fair schedule every request
    returns its own stamped record.

    Each step is atomic. When two writers both [open] the file before
    either has dumped, the real file can end as the last writer's JSON
    followed by the tail of a longer earlier dump, which does not parse;
    the model leaves the last writer's list. No theorem rests on that
    case: the lost-update and truncated-read schedules never have two
    dumps pending at once, an unparsable file satisfies the bound, and a
    load of an unparsable file still yields a list ([[]]), so under a fair
    schedule every request still returns its own record. *)

From S2P Require Import Prelude PyCore HistoryStore.

Local Open Scope string_scope.

Module Concurrency.
Import HistoryStore.

(** ** State *)

(** Where a request is in [add_test_record]. *)
Inductive phase : Type :=
| Start                                       (** before [load_test_history()] *)
| Loaded (history : json)                     (** holding what the load returned *)
| Dumping (history : list json)               (** file opened for writing (truncated), [json.dump] pending *)
| Finished (result : exc (list (string * json))).

(** One request's call of [add_test_record]: its record, the fresh id and
    time the environment gives it, how its write goes, and its phase. *)
Record thread : Type := Thread {
  th_record : list (string * json);
  th_uuid : string;
  th_ts : string;
  th_write : write_outcome;
  th_phase : phase
}.

Definition with_phase (th : thread) (p : phase) : thread :=
  Thread (th_record th) (th_uuid th) (th_ts th) (th_write th) p.

(** ** Steps *)

(** One atomic step of a thread on the shared file; [None] once it has
    finished. The step from [Loaded] does lines 35-41 and the [open] of
    line 29: on a successful [open] the file is empty, which [json.load]
    cannot read. *)
Definition thread_step (th : thread) (f : file_state) : option (thread * file_state) :=
  let record := stamp_record (th_record th) (th_uuid th) (th_ts th) in
  match th_phase th with
  | Start => Some (with_phase th (Loaded (history_of f)), f)
  | Loaded history =>
      match py_append history (JObj record) with
      | Raise e => Some (with_phase th (Finished (Raise e)), f)
      | Ok l =>
          let l := if (HISTORY_LIMIT <? length l)%nat then py_slice l (Some (-100)%Z) None else l in
          match th_write th with
          | WriteOk => Some (with_phase th (Dumping l), FileUnreadable)
          | OpenFails m => Some (with_phase th (Finished (Raise (PyExc OSError m))), f)
          | WriteFailsAfterTruncate m =>
              Some (with_phase th (Finished (Raise (PyExc OSError m))), FileUnreadable)
          end
      end
  | Dumping l => Some (with_phase th (Finished (Ok record)), FileJson (JArr l))
  | Finished _ => None
  end.

(** Run a schedule: each entry names the thread that takes the next step;
    a finished or missing thread lets the turn pass. *)
Fixpoint run_schedule (sched : list nat) (ths : list thread) (f : file_state)
    : list thread * file_state :=
  match sched with
  | [] => (ths, f)
  | i :: sched' =>
      match ths !! i with
      | Some th =>
          match thread_step th f with
          | Some (th', f') => run_schedule sched' (<[i := th']> ths) f'
          | None => run_schedule sched' ths f
          end
      | None => run_schedule sched' ths f
      end
  end.

Inductive conc_step : list thread * file_state -> list thread * file_state -> Prop :=
| conc_step_thread ths f i th th' f' :
    ths !! i = Some th -> thread_step th f = Some (th', f') ->
    conc_step (ths, f) (<[i := th']> ths, f').

(** A request about to call [add_test_record]. *)
Definition fresh (record : list (string * json)) (uuid ts : string) : thread :=
  Thread record uuid ts WriteOk Start.

Definition finished (record : list (string * json)) (uuid ts : string) : thread :=
  Thread record uuid ts WriteOk (Finished (Ok (stamp_record record uuid ts))).

(** What a thread may hold without breaking the file's bound once it writes. *)
Definition phase_ok (p : phase) : Prop :=
  match p with
  | Dumping l => length l <= HISTORY_LIMIT
  | _ => True
  end.

Definition conc_inv (c : list thread * file_state) : Prop :=
  store_inv c.2 /\ Forall (fun th => phase_ok (th_phase th)) c.1.

(** ** Progress of the threads *)

(** How many more steps a request takes: it finishes after at most three. *)
Definition remaining (p : phase) : nat :=
  match p with Start => 3 | Loaded _ => 2 | Dumping _ => 1 | Finished _ => 0 end.

Definition occurrences (i : nat) (sched : list nat) : nat := length (filter (fun j => j = i) sched).

(** A schedule gives each of [n] threads at least three turns. *)
Definition fair (n : nat) (sched : list nat) : Prop := forall i, i < n -> 3 <= occurrences i sched.

(** Three rounds over threads [0 .. n-1]. *)
Definition round_robin (n : nat) : list nat := concat (replicate 3 (seq 0 n)).

(** A thread whose writes succeed, whose snapshot is a list, and which, once
    finished, returned its own stamped record. *)
Definition thread_ok (th : thread) : Prop :=
  th_write th = WriteOk /\
  match th_phase th with
  | Loaded h => exists l, h = JArr l
  | Finished r => r = Ok (stamp_record (th_record th) (th_uuid th) (th_ts th))
  | _ => True
  end.

Definition same_request (th th' : thread) : Prop :=
  th_record th' = th_record th /\ th_uuid th' = th_uuid th /\ th_ts th' = th_ts th /\
  th_write th' = th_write th.

(** ** Lemmas *)

(** Every schedule's outcome is reachable by [conc_step]. *)
Lemma run_schedule_rtc sched ths f : rtc conc_step (ths, f) (run_schedule sched ths f).
Proof.
  revert ths f. induction sched as [|i sched IH]; intros ths f; simpl; [apply rtc_refl|].
  destruct (ths !! i) as [th|] eqn:Hi; [|apply IH].
  destruct (thread_step th f) as [[th' f']|] eqn:Hs; [|apply IH].
  eapply rtc_l; [by econstructor|]. apply IH.
Qed.

(** Evaluate a concrete schedule: the trims become [lastn]. *)
Ltac run_schedule_steps := simpl; unfold with_phase; simpl; rewrite ?trim_history.

Lemma thread_step_inv th f th' f' :
  thread_step th f = Some (th', f') -> store_inv f -> phase_ok (th_phase th) ->
  store_inv f' /\ phase_ok (th_phase th').
Proof.
  unfold thread_step. intros Hs Hf Hp.
  destruct (th_phase th) as [|h|l|]; simplify_eq/=; [done| |done].
  destruct (py_append h _) as [l|e]; simplify_eq/=; [|done].
  rewrite trim_history in Hs.
  destruct (th_write th); simplify_eq/=; unfold store_inv; simpl; try done.
  all: rewrite ?length_lastn; split; [lia|try lia].
Qed.

Lemma conc_step_inv c c' : conc_step c c' -> conc_inv c -> conc_inv c'.
Proof.
  intros [ths f i th th' f' Hi Hs] [Hf Hths]; simpl in *.
  destruct (thread_step_inv th f th' f' Hs Hf) as [Hf' Hp'];
    [exact (proj1 (Forall_lookup _ _) Hths i th Hi)|].
  split; [done|]. simpl. by apply Forall_insert.
Qed.

Lemma conc_reachable_inv c c' : rtc conc_step c c' -> conc_inv c -> conc_inv c'.
Proof. induction 1; eauto using conc_step_inv. Qed.

(** ** Progress *)

Lemma thread_step_remaining th f th' f' :
  thread_step th f = Some (th', f') -> remaining (th_phase th') < remaining (th_phase th).
Proof.
  unfold thread_step, with_phase. destruct (th_phase th); try discriminate; intros Hs;
    repeat case_match; simplify_eq/=; lia.
Qed.

Lemma thread_step_same th f th' f' : thread_step th f = Some (th', f') -> same_request th th'.
Proof.
  unfold thread_step, with_phase. destruct (th_phase th); try discriminate; intros Hs;
    repeat case_match; simplify_eq/=; done.
Qed.

Lemma thread_step_None th f : thread_step th f = None -> remaining (th_phase th) = 0.
Proof. unfold thread_step. destruct (th_phase th); try done; repeat case_match; done. Qed.

Lemma thread_step_view th f th' f' : thread_step th f = Some (th', f') -> view f <> None -> view f' <> None.
Proof.
  unfold thread_step, with_phase. destruct (th_phase th); try discriminate; intros Hs;
    repeat case_match; simplify_eq/=; done.
Qed.

Lemma thread_step_ok th f th' f' :
  thread_step th f = Some (th', f') -> view f <> None -> thread_ok th -> thread_ok th'.
Proof.
  unfold thread_ok, thread_step, with_phase, view. intros Hs Hv [Hw Hp]. rewrite Hw in Hs.
  destruct (th_phase th) as [|h|l|]; simplify_eq/=.
  - split; [done|]. destruct (history_of _); try done. eauto.
  - destruct Hp as [l ->]. simpl in Hs. simplify_eq/=. done.
  - done.
Qed.

(** The thread at [i] after a schedule: the same request, at most
    [remaining - occurrences] steps from the end. *)
Lemma run_schedule_thread sched ths f i th :
  ths !! i = Some th ->
  exists th', (run_schedule sched ths f).1 !! i = Some th' /\ same_request th th' /\
    remaining (th_phase th') <= remaining (th_phase th) - occurrences i sched /\
    (view f <> None -> thread_ok th -> thread_ok th').
Proof.
  revert ths f th. unfold occurrences.
  induction sched as [|j sched IH]; intros ths f th Hi; cbn [run_schedule]; rewrite ?filter_cons.
  - exists th. split_and!; [done|by repeat split|simpl; lia|done].
  - destruct (ths !! j) as [thj|] eqn:Hj.
    + destruct (thread_step thj f) as [[thj' f']|] eqn:Hs.
      * destruct (decide (j = i)) as [->|Hne].
        -- simplify_eq. try rewrite decide_True by done. simpl length.
           assert (Hi' : <[i := thj']> ths !! i = Some thj')
             by (apply list_lookup_insert_eq; by eapply lookup_lt_Some).
           destruct (IH _ f' _ Hi') as (th'' & H1 & H2 & H3 & H4).
           pose proof (thread_step_remaining _ _ _ _ Hs).
           destruct (thread_step_same _ _ _ _ Hs) as (?&?&?&?), H2 as (?&?&?&?).
           exists th''. split_and!; [done|repeat split; congruence|simpl; lia|].
           intros Hv Hok. eauto using thread_step_ok, thread_step_view.
        -- try rewrite decide_False by done.
           assert (Hi' : <[j := thj']> ths !! i = Some th) by (by rewrite list_lookup_insert_ne).
           destruct (IH _ f' _ Hi') as (th'' & H1 & H2 & H3 & H4).
           exists th''. split_and!; [done|done|lia|]. eauto using thread_step_view.
      * destruct (IH _ f _ Hi) as (th'' & H1 & H2 & H3 & H4).
        exists th''. split_and!; [done|done| |done].
        case_decide; simplify_eq/=; simpl length; [|lia].
        pose proof (thread_step_None _ _ Hs). lia.
    + destruct (IH _ f _ Hi) as (th'' & H1 & H2 & H3 & H4).
      exists th''. split_and!; [done|done| |done].
      case_decide; simplify_eq/=; simpl length; lia.
Qed.

Lemma run_schedule_length sched ths f : length (run_schedule sched ths f).1 = length ths.
Proof.
  revert ths f. induction sched as [|i sched IH]; intros ths f; simpl; [done|].
  destruct (ths !! i) as [th|]; [destruct (thread_step th f) as [[th' f']|]|];
    rewrite ?IH, ?length_insert; done.
Qed.

Lemma occurrences_app i s1 s2 : occurrences i (s1 ++ s2) = occurrences i s1 + occurrences i s2.
Proof. unfold occurrences. by rewrite filter_app, length_app. Qed.

Lemma occurrences_seq i n : occurrences i (seq 0 n) = if decide (i < n) then 1 else 0.
Proof.
  induction n as [|n IH]; [done|]. rewrite seq_S, occurrences_app, IH.
  unfold occurrences. rewrite filter_cons, filter_nil. repeat case_decide; simpl; lia.
Qed.

Lemma round_robin_fair n : fair n (round_robin n).
Proof.
  intros i Hi. unfold round_robin. simpl. rewrite !occurrences_app, occurrences_seq.
  rewrite decide_True by done. unfold occurrences. simpl. lia.
Qed.


(** ** Theorems *)

(** C30: lost update. Two requests load the same history [l], then each
    writes its own append: both finish successfully (both answer 200 with
    their id), yet the file keeps only the second record, where running
    them one after the other keeps both. *)
Theorem concurrent_lost_update l r0 u0 t0 r1 u1 t1 :
  run_schedule [0; 1; 0; 0; 1; 1] [fresh r0 u0 t0; fresh r1 u1 t1] (FileJson (JArr l)) =
    ([finished r0 u0 t0; finished r1 u1 t1],
     FileJson (JArr (Spec.append HISTORY_LIMIT (JObj (stamp_record r1 u1 t1)) l))) /\
  run_schedule [0; 0; 0; 1; 1; 1] [fresh r0 u0 t0; fresh r1 u1 t1] (FileJson (JArr l)) =
    ([finished r0 u0 t0; finished r1 u1 t1],
     FileJson (JArr (Spec.append HISTORY_LIMIT (JObj (stamp_record r1 u1 t1))
                       (Spec.append HISTORY_LIMIT (JObj (stamp_record r0 u0 t0)) l)))).
Proof.
  split; unfold fresh; run_schedule_steps; reflexivity.
Qed.

(** C31: a request that loads while another one's file is open for
    writing reads the empty, unparsable file as an empty history: when it
    writes last, the file holds its record alone and every earlier record
    is gone, though both requests answer 200. *)
Theorem concurrent_truncated_read_wipes_history l r0 u0 t0 r1 u1 t1 :
  run_schedule [0; 0; 1; 0; 1; 1] [fresh r0 u0 t0; fresh r1 u1 t1] (FileJson (JArr l)) =
    ([finished r0 u0 t0; finished r1 u1 t1], FileJson (JArr [JObj (stamp_record r1 u1 t1)])).
Proof. unfold fresh; run_schedule_steps. reflexivity. Qed.

(** C32: whatever the interleaving of any number of requests, from a file
    within the bound and requests that have not started, the file never
    holds more than 100 records: each writer trims what it writes. *)
Theorem concurrent_reachable_bounded ths0 f0 ths f :
  store_inv f0 -> Forall (fun th => th_phase th = Start) ths0 ->
  rtc conc_step (ths0, f0) (ths, f) -> store_inv f.
Proof.
  intros Hf Hths Hr. apply (conc_reachable_inv _ _ Hr). split; [done|].
  eapply Forall_impl; [exact Hths|]. intros th ->. exact I.
Qed.

(** C33: every request is answered under a fair schedule: when each of the
    requests gets three turns (in any order, interleaved in any way), on a
    file that holds a list, is absent or unreadable, and with writes that
    succeed, every request finishes and returns its own stamped record. *)
Theorem fair_schedule_all_answer sched ths f :
  fair (length ths) sched -> view f <> None ->
  Forall (fun th => th_write th = WriteOk /\ th_phase th = Start) ths ->
  (run_schedule sched ths f).1 = map (fun th => finished (th_record th) (th_uuid th) (th_ts th)) ths.
Proof.
  intros Hfair Hv Hths. apply list_eq. intros i. rewrite list_lookup_fmap.
  destruct (ths !! i) as [th|] eqn:Hi; simpl.
  - destruct (run_schedule_thread sched ths f i th Hi) as (th' & H1 & (Hr & Hu & Ht & Hw) & H3 & H4).
    rewrite H1. f_equal.
    destruct (proj1 (Forall_lookup _ _) Hths i th Hi) as [Hw0 Hs0].
    pose proof (Hfair i (lookup_lt_Some _ _ _ Hi)).
    destruct (H4 Hv) as [_ Hp']; [split; [done|by rewrite Hs0]|].
    rewrite Hs0 in H3. destruct th' as [r u t w p]; simpl in *.
    destruct p; simpl in H3; try lia. subst. unfold finished. congruence.
  - apply lookup_ge_None. rewrite run_schedule_length. by apply lookup_ge_None.
Qed.

(** ** Witnesses *)

Lemma concurrent_reachable_bounded_witness :
  let ths0 := [fresh [] "a" "t"; fresh [] "b" "t"] in
  let c := run_schedule [0; 1; 0; 1; 0; 1] ths0 FileAbsent in
  store_inv FileAbsent /\ Forall (fun th => th_phase th = Start) ths0 /\
  rtc conc_step (ths0, FileAbsent) c /\ store_inv c.2.
Proof.
  pose proof (run_schedule_rtc [0; 1; 0; 1; 0; 1] [fresh [] "a" "t"; fresh [] "b" "t"] FileAbsent) as Hr.
  split_and!; [unfold store_inv; simpl; lia | repeat constructor | exact Hr |].
  destruct (run_schedule _ _ _) as [ths f] eqn:E.
  apply (concurrent_reachable_bounded [fresh [] "a" "t"; fresh [] "b" "t"] FileAbsent ths f);
    [unfold store_inv; simpl; lia | repeat constructor | exact Hr].
Defined.

Lemma fair_schedule_all_answer_witness :
  let ths := [fresh [] "a" "t1"; fresh [] "b" "t2"; fresh [] "c" "t3"] in
  fair (length ths) (round_robin 3) /\ view FileAbsent <> None /\
  Forall (fun th => th_write th = WriteOk /\ th_phase th = Start) ths /\
  (run_schedule (round_robin 3) ths FileAbsent).1 =
    map (fun th => finished (th_record th) (th_uuid th) (th_ts th)) ths.
Proof.
  assert (Hf : fair 3 (round_robin 3)) by apply round_robin_fair.
  assert (Hv : view FileAbsent <> None) by done.
  assert (Hs : Forall (fun th => th_write th = WriteOk /\ th_phase th = Start)
                 [fresh [] "a" "t1"; fresh [] "b" "t2"; fresh [] "c" "t3"]) by (repeat constructor).
  split_and!; [exact Hf | exact Hv | exact Hs |].
  exact (fair_schedule_all_answer (round_robin 3) [fresh [] "a" "t1"; fresh [] "b" "t2"; fresh [] "c" "t3"] FileAbsent Hf Hv Hs).
Defined.

End Concurrency.
